(** * OS-tips: the scoring engine and the durable stores of [src/app.py]

    A shallow embedding of the storage layer ([atomic_write_text],
    [load_results], [save_results], [load_picks], [save_picks], the
    Backup / Restore tab) and of the scoring engine ([score_pick],
    [build_scoreboard]).

    Modelling boundary.  pandas, json, pathlib and streamlit are libraries,
    not code of the repository.  They are modelled by what the program
    observes of them:
    - a file holds a [text]; texts are kept up to parsing, i.e. a text is
      identified with the table [pd.read_csv] reads from it, or with the
      value [json.loads] reads from it, and every other text is opaque;
    - a cell of a table is the value pandas read there, given by its [str]
      (in a column pandas reads as integers the cell written 01 is "1"); a
      missing cell is pandas' NaN.  Which type pandas infers for a column is
      outside the model: the text [to_csv] writes stands for the table of
      the strings written.  That is the table pandas reads back when it
      keeps the id column as text, and when the strings are what pandas
      printed for a column it had read (an import writes back what it read);
      it is another table when the ids all look like numbers and were not
      read as such, as the roster ids 1 and 01 left over from a roster with
      a dropped record can.  The theorems on the program below do not say
      which records a load finds in the seed or in a frame saved from the
      roster's ids: they are about a file that reads as a given frame, or
      hold whatever the ids read back as;
    - [Path.write_text] opens the file, which empties it, and writes the
      text; [Path.replace] is the operating system's atomic rename;
    - [DataFrame.sort_values] on several columns is pandas' stable
      lexicographic sort;
    - [st.error] / [st.success] append a notice to what the page shows, and
      [st.stop] ends the script run. *)

From Stdlib Require Import ZArith String List Lia.
From stdpp Require Import base option gmap strings list sorting.

Set Warnings "-register-all".
Local Open Scope string_scope.

(** ** Constants of the module *)

Definition PLAYERS : list string :=
  ["Johan"; "Göran"; "Jesper"; "Peter"; "Magnus"; "Tony"].
Definition MEDALS : list string := ["None"; "Bronze"; "Silver"; "Gold"].

(** [STATE_DIR / "results.csv"] and [STATE_DIR / "picks.json"], with
    [STATE_DIR = Path.home() / ".streamlit" / "os_tips_state"]. *)
Definition STATE_DIR : string := "~/.streamlit/os_tips_state".
Definition RESULTS_CSV : string := STATE_DIR +:+ "/results.csv".
Definition PICKS_JSON : string := STATE_DIR +:+ "/picks.json".

(** ** Python values, tables and texts *)

(** The values [json.loads] builds.  A number keeps its literal. *)
Inductive pyval :=
| PyNone
| PyBool (b : bool)
| PyNum (lit : string)
| PyStr (s : string)
| PyList (l : list pyval)
| PyDict (d : gmap string pyval).

(** What [pd.read_csv] returns: the header and, per record, the cells by
    column name, each cell being the value pandas read, given by its [str].
    A column with no cell in a record is NaN there. *)
Record Table := mkTable {
  columns : list string;
  rows : list (gmap string string)
}.

(** The results frame once its two columns are strings: one
    [(athlete_id, medal)] pair per record.  No function of the module reads
    another column of it. *)
Abbreviation DataFrame := (list (string * string)).

(** The roster frame [load_athletes] returns: three string columns, no NaN
    (lines 46-49). *)
Record Athlete := mkAthlete {
  athlete_id : string;
  name : string;
  sport : string
}.

Inductive text :=
| CsvText (t : Table)
| JsonText (v : pyval)
| OtherText (s : string).

(** ** Outcomes and the state of a script run *)

(** The exceptions the modelled calls raise, all of them [Exception]s:
    [ParserError] stands for whatever [pd.read_csv] raises on a text it does
    not read as a table, [JSONDecodeError] for whatever decoding and
    [json.loads] raise on bytes they do not read as a document. *)
Inductive exn :=
| FileNotFoundError
| ParserError
| JSONDecodeError
| AttributeError.

(** [str(e)], the reason an error notice quotes.  The message of the
    library's exception depends on the payload and is not modelled: the
    exception's class stands for it. *)
Definition exn_str (e : exn) : string :=
  match e with
  | FileNotFoundError => "FileNotFoundError"
  | ParserError => "ParserError"
  | JSONDecodeError => "JSONDecodeError"
  | AttributeError => "AttributeError"
  end.

(** A call returns, raises an [Exception], or runs into [st.stop()], whose
    exception no [except Exception] catches. *)
Inductive outcome (A : Type) :=
| Return (a : A)
| Raise (e : exn)
| Stopped.
Arguments Return {A} a.
Arguments Raise {A} e.
Arguments Stopped {A}.

Inductive notice :=
| StError (msg : string)
| StSuccess (msg : string).

Record world := World {
  files : gmap string text;
  shown : list notice
}.

Definition M (A : Type) : Type := world → outcome A * world.

#[global] Instance outcome_ret : MRet outcome := λ A a, Return a.
#[global] Instance outcome_bind : MBind outcome := λ A B k m,
  match m with
  | Return a => k a
  | Raise e => Raise e
  | Stopped => Stopped
  end.

#[global] Instance M_ret : MRet M := λ A a σ, (Return a, σ).
#[global] Instance M_bind : MBind M := λ A B k m σ,
  match m σ with
  | (Return a, σ') => k a σ'
  | (Raise e, σ') => (Raise e, σ')
  | (Stopped, σ') => (Stopped, σ')
  end.

Definition raise {A} (e : exn) : M A := λ σ, (Raise e, σ).

(** [try: body / except Exception as e: handler e]. *)
Definition try_except {A} (body : M A) (handler : exn → M A) : M A := λ σ,
  match body σ with
  | (Raise e, σ') => handler e σ'
  | r => r
  end.

Definition st_error (msg : string) : M unit := λ σ,
  (Return (), World (files σ) (shown σ ++ [StError msg])).
Definition st_success (msg : string) : M unit := λ σ,
  (Return (), World (files σ) (shown σ ++ [StSuccess msg])).
Definition st_stop {A} : M A := λ σ, (Stopped, σ).

(** ** pathlib, on a map from paths to texts *)

Definition path_exists (p : string) : M bool := λ σ,
  (Return (bool_decide (is_Some (files σ !! p))), σ).

Definition read_text (p : string) : M text := λ σ,
  match files σ !! p with
  | Some t => (Return t, σ)
  | None => (Raise FileNotFoundError, σ)
  end.

Definition write_text (p : string) (t : text) : M unit := λ σ,
  (Return (), World (<[p := t]> (files σ)) (shown σ)).

(** [src.replace(dst)]: the rename; [dst] is overwritten in one step. *)
Definition replace (src dst : string) : M unit := λ σ,
  match files σ !! src with
  | Some t => (Return (), World (<[dst := t]> (delete src (files σ))) (shown σ))
  | None => (Raise FileNotFoundError, σ)
  end.

(** [path.with_suffix(path.suffix + ".tmp")]: the last suffix is replaced by
    itself followed by ".tmp", which appends ".tmp" to the path. *)
Definition tmp_of (path : string) : string := path +:+ ".tmp".

(** The two calls of pathlib that write, as an interface.  The run of the
    script reads them in [M], as the files they leave behind; the section on
    system calls below reads them as the calls they make. *)
Class PathCalls (F : Type → Type) := {
  call_write_text : string → text → F unit;
  call_replace : string → string → F unit
}.

#[global] Instance M_calls : PathCalls M := {|
  call_write_text := write_text;
  call_replace := replace
|}.

(** Lines 29-32, over any reading of the two calls. *)
Definition atomic_write_text_gen {F : Type → Type} {FB : MBind F}
    {FC : PathCalls F} (path : string) (t : text) : F unit :=
  let tmp := tmp_of path in
  call_write_text tmp t;;
  call_replace tmp path.

Definition atomic_write_text (path : string) (t : text) : M unit :=
  atomic_write_text_gen path t.

(** ** The codecs *)

Definition pd_read_csv (t : text) : M Table :=
  match t with
  | CsvText tb => mret tb
  | _ => raise ParserError
  end.

Definition read_csv (p : string) : M Table :=
  t ← read_text p; pd_read_csv t.

(** [df.to_csv(index=False)] of a frame with the columns athlete_id, medal:
    the text that holds the strings of the frame, given as the table of
    those strings.  A medal cell reads back as its string or as NaN, which
    line 67 sends to "None" like every string outside the enum, so the
    medals a load returns do not depend on the difference.  An id cell reads
    back as its string when pandas keeps the id column as text; when every
    id of the file looks like a number pandas reads numbers, and the id
    written 01 comes back as "1".  That case is outside this definition. *)
Definition to_csv (df : DataFrame) : text :=
  CsvText (mkTable ["athlete_id"; "medal"]
             ((λ r, {[ "athlete_id" := r.1; "medal" := r.2 ]}) <$> df)).

Definition json_loads (t : text) : M pyval :=
  match t with
  | JsonText v => mret v
  | _ => raise JSONDecodeError
  end.

Definition json_dumps (v : pyval) : text := JsonText v.

(** ** ResultStore *)

Definition required : list string := ["athlete_id"; "medal"].

(** [required.issubset(df.columns)] *)
Definition issubset (req cols : list string) : bool :=
  forallb (λ c, bool_decide (c ∈ cols)) req.

(** [astype(str)] of one cell: NaN prints as "nan". *)
Definition astype_str (c : option string) : string := default "nan" c.

(** Lines 65-66: both columns as strings. *)
Definition str_columns (tb : Table) : DataFrame :=
  (λ r, (astype_str (r !! "athlete_id"), astype_str (r !! "medal"))) <$> rows tb.

(** Line 67: [df.loc[~df["medal"].isin(MEDALS), "medal"] = "None"]. *)
Definition coerce_medal (m : string) : string :=
  if bool_decide (m ∈ MEDALS) then m else "None".
Definition coerce_medals (df : DataFrame) : DataFrame :=
  (λ r, (r.1, coerce_medal r.2)) <$> df.

(** Line 69: [athletes[["athlete_id"]].merge(df, on="athlete_id", how="left")]:
    the left keys in their order, each with its matching records of [df] in
    their order, or with one NaN record when nothing matches. *)
Definition merge_left (ids : list string) (df : DataFrame)
  : list (string * option string) :=
  flat_map (λ a,
    match filter (λ r, r.1 = a) df with
    | [] => [(a, None)]
    | ms => (λ r, (a, Some r.2)) <$> ms
    end) ids.

(** Line 70: [merged["medal"].fillna("None")]. *)
Definition fillna (merged : list (string * option string)) : DataFrame :=
  (λ r, (r.1, default "None" r.2)) <$> merged.

(** Lines 55-56: the all-None seed. *)
Definition seed (athletes : list Athlete) : DataFrame :=
  (λ a, (athlete_id a, "None")) <$> athletes.

Definition results_columns_msg : string :=
  "results.csv måste ha kolumnerna: ['athlete_id', 'medal']".

Definition load_results (athletes : list Athlete) : M DataFrame :=
  ex ← path_exists RESULTS_CSV;
  (if (ex : bool) then mret ()
   else atomic_write_text RESULTS_CSV (to_csv (seed athletes)));;
  df ← read_csv RESULTS_CSV;
  (if issubset required (columns df) then mret ()
   else st_error results_columns_msg;; st_stop);;
  let df := coerce_medals (str_columns df) in
  let merged := merge_left (athlete_id <$> athletes) df in
  mret (fillna merged).

Definition save_results (results_df : DataFrame) : M unit :=
  atomic_write_text RESULTS_CSV (to_csv results_df).

(** ** PickStore *)

Definition load_picks : M pyval :=
  ex ← path_exists PICKS_JSON;
  if negb (ex : bool) then mret (PyDict ∅)
  else try_except (t ← read_text PICKS_JSON; json_loads t)
                  (λ _, mret (PyDict ∅)).

Definition save_picks (picks : pyval) : M unit :=
  atomic_write_text PICKS_JSON (json_dumps picks).

(** ** Scoring *)

(** [v == s] for a string [s]: only an equal string is equal to it. *)
Definition py_eq_str (v : pyval) (s : string) : bool :=
  match v with
  | PyStr t => bool_decide (t = s)
  | _ => false
  end.

Definition score_pick (pick : pyval) (actual : string) : Z :=
  if bool_decide (actual = "None") then 0
  else if py_eq_str pick actual then 5
  else if negb (py_eq_str pick "None") && negb (bool_decide (actual = "None")) then 2
  else 0.

(** ** Scoreboard *)

(** [d.get(k, dflt)]: only a dict has the method. *)
Definition py_get (d : pyval) (k : string) (dflt : pyval) : outcome pyval :=
  match d with
  | PyDict m => Return (default dflt (m !! k))
  | _ => Raise AttributeError
  end.

(** [dict(zip(results["athlete_id"], results["medal"]))]: of two records
    with one id the later one stays. *)
Definition dict_zip (results : DataFrame) : gmap string string :=
  foldl (λ m r, <[r.1 := r.2]> m) ∅ results.

(** The loop variables [total], [exact], [right_person]. *)
Record Counters := mkCounters {
  total : Z;
  exact : Z;
  right_person : Z
}.

(** The body of the inner loop, lines 108-115. *)
Definition tally (results_map : gmap string string) (user_picks : pyval)
    (c : Counters) (aid : string) : outcome Counters :=
  pick ← py_get user_picks aid (PyStr "None");
  let actual := default "None" (results_map !! aid) in
  let pts := score_pick pick actual in
  let total := (total c + pts)%Z in
  if negb (bool_decide (actual = "None")) && py_eq_str pick actual then
    Return (mkCounters total (exact c + 1) (right_person c))
  else if negb (bool_decide (actual = "None")) && negb (py_eq_str pick "None") then
    Return (mkCounters total (exact c) (right_person c + 1))
  else
    Return (mkCounters total (exact c) (right_person c)).

Fixpoint for_each {S A} (body : S → A → outcome S) (s : S) (l : list A)
  : outcome S :=
  match l with
  | [] => Return s
  | x :: l' => s' ← body s x; for_each body s' l'
  end.

(** One row of the scoreboard; the columns are "Tippare", "Poäng",
    "Exakta (5p)" and "Rätt medaljör (2p)". *)
Record Entry := mkEntry {
  Tippare : string;
  Poang : Z;
  Exakta : Z;
  Ratt_medaljor : Z
}.

(** The body of the outer loop, lines 105-116. *)
Definition player_row (results_map : gmap string string) (ids : list string)
    (picks_all : pyval) (p : string) : outcome Entry :=
  user_picks ← py_get picks_all p (PyDict ∅);
  c ← for_each (tally results_map user_picks) (mkCounters 0 0 0) ids;
  Return (mkEntry p (total c) (exact c) (right_person c)).

(** The sort key of [sort_values(["Poäng", "Exakta (5p)"], ascending=False)]
    and its order: [key_le a b] when [a] does not rank before [b]. *)
Definition sort_key (e : Entry) : Z * Z := (Poang e, Exakta e).

Definition key_le (a b : Z * Z) : bool :=
  (a.1 <? b.1)%Z || ((a.1 =? b.1)%Z && (a.2 <=? b.2)%Z).

(** A record goes before the first sorted record that does not outrank it. *)
Fixpoint insert_desc (x : Entry) (l : list Entry) : list Entry :=
  match l with
  | [] => [x]
  | y :: l' =>
      if key_le (sort_key y) (sort_key x) then x :: y :: l'
      else y :: insert_desc x l'
  end.

Definition sort_values (l : list Entry) : list Entry :=
  foldr insert_desc [] l.

Definition build_scoreboard (athletes : list Athlete) (results : DataFrame)
    (picks_all : pyval) : outcome (list Entry) :=
  let results_map := dict_zip results in
  rows ← mapM (player_row results_map (athlete_id <$> athletes) picks_all) PLAYERS;
  Return (sort_values rows).

(** ** Backup / Restore tab, lines 245-267 *)

Definition restore_picks (up_picks : text) : M unit :=
  try_except
    (restored ← json_loads up_picks;
     save_picks restored;;
     st_success "Återställde picks.json!")
    (λ e, st_error ("Kunde inte läsa JSON: " +:+ exn_str e)).

Definition restore_columns_msg : string :=
  "results.csv måste ha kolumnerna athlete_id, medal".

Definition restore_results (up_results : text) : M unit :=
  try_except
    (df ← pd_read_csv up_results;
     if negb (issubset required (columns df)) then st_error restore_columns_msg
     else
       let df := coerce_medals (str_columns df) in
       save_results df;;
       st_success "Återställde results.csv!")
    (λ e, st_error ("Kunde inte läsa CSV: " +:+ exn_str e)).

(** ** The system calls behind [atomic_write_text]

    [Path.write_text] opens the file for writing, which empties it, and
    writes the text, which the file system may take in pieces; [torn] is
    what the file holds in between.  [Path.replace] is one call. *)

Inductive syscall :=
| SysOpen (p : string)
| SysWrite (p : string) (t : text)
| SysReplace (src dst : string).

Definition sys_run (fs : gmap string text) (c : syscall) : gmap string text :=
  match c with
  | SysOpen p => <[p := OtherText ""]> fs
  | SysWrite p t => <[p := t]> fs
  | SysReplace src dst =>
      match fs !! src with
      | Some t => <[dst := t]> (delete src fs)
      | None => fs
      end
  end.

(** A straight run of calls, with the system calls it makes in order. *)
Definition Calls (A : Type) : Type := list syscall * A.

#[global] Instance Calls_bind : MBind Calls := λ A B k m,
  let r := k m.2 in ((m.1 ++ r.1)%list, r.2).

Definition syscalls_of (torn : text) : PathCalls Calls := {|
  call_write_text p t := ([SysOpen p; SysWrite p torn; SysWrite p t], ());
  call_replace src dst := ([SysReplace src dst], ())
|}.



(** ** Worked runs *)

Definition A1 : Athlete := mkAthlete "A1" "Anna" "Skidor".
Definition empty_world : world := World ∅ [].
Definition with_file (p : string) (t : text) (σ : world) : world :=
  World (<[p := t]> (files σ)) (shown σ).

(** ** The reading of the specification

    The closed enum of the data model, the scoring rule in the words of
    section 4.3, and the per-player figures in the words of section 4.4. *)

Inductive Medal := NoMedal | Bronze | Silver | Gold.

#[global] Instance Medal_eq_dec : EqDecision Medal.
Proof. solve_decision. Defined.

Definition medal_str (m : Medal) : string :=
  match m with
  | NoMedal => "None"
  | Bronze => "Bronze"
  | Silver => "Silver"
  | Gold => "Gold"
  end.

Definition score (pick actual : Medal) : Z :=
  if decide (actual = NoMedal) then 0
  else if decide (pick = actual) then 5
  else if decide (pick ≠ NoMedal) then 2
  else 0.

(** A picks structure, player → athlete id → medal, as the Python value. *)
Definition py_of_picks (picks : gmap string (gmap string string)) : pyval :=
  PyDict ((λ up, PyDict (PyStr <$> up)) <$> picks).

(** The player's pick for an athlete, default None; the athlete's outcome,
    default None. *)
Definition pick_of (picks : gmap string (gmap string string))
    (p aid : string) : string :=
  default "None" (picks !! p ≫= (.!! aid)).
Definition actual_of (results : DataFrame) (aid : string) : string :=
  default "None" (dict_zip results !! aid).

Definition sum_Z (l : list Z) : Z := foldr Z.add 0%Z l.

Definition total_points (ids : list string) (results : DataFrame)
    (picks : gmap string (gmap string string)) (p : string) : Z :=
  sum_Z ((λ aid, score_pick (PyStr (pick_of picks p aid)) (actual_of results aid)) <$> ids).

Definition exact_count (ids : list string) (results : DataFrame)
    (picks : gmap string (gmap string string)) (p : string) : Z :=
  Z.of_nat (length (filter (λ aid,
    actual_of results aid ≠ "None" ∧ pick_of picks p aid = actual_of results aid) ids)).

Definition partial_count (ids : list string) (results : DataFrame)
    (picks : gmap string (gmap string string)) (p : string) : Z :=
  Z.of_nat (length (filter (λ aid,
    actual_of results aid ≠ "None" ∧ pick_of picks p aid ≠ "None" ∧
    pick_of picks p aid ≠ actual_of results aid) ids)).

Definition spec_entry (athletes : list Athlete) (results : DataFrame)
    (picks : gmap string (gmap string string)) (p : string) : Entry :=
  let ids := athlete_id <$> athletes in
  mkEntry p (total_points ids results picks p) (exact_count ids results picks p)
            (partial_count ids results picks p).

(** [outranks a b]: [a] may stand before [b] in a scoreboard sorted
    descending by points, ties broken descending by exact count. *)
Definition outranks (a b : Entry) : Prop :=
  (Poang b < Poang a)%Z ∨ (Poang a = Poang b ∧ (Exakta b ≤ Exakta a)%Z).

(** The picks of the roster's players only. *)
Definition roster_only {V} (picks : gmap string V) : gmap string V :=
  filter (λ kv, kv.1 ∈ PLAYERS) picks.

(** The records of a frame stored under an athlete id, and the medal the
    first of them holds. *)
Definition stored_under (df : DataFrame) (a : string) : DataFrame :=
  filter (λ r, r.1 = a) df.
Definition stored_medal (df : DataFrame) (a : string) : string :=
  default "None" (snd <$> head (stored_under df a)).

(** What both a load and an import require of a payload: it parses, and a
    results table has the two required columns. *)
Definition json_ok (t : text) : bool :=
  match t with JsonText _ => true | _ => false end.
Definition csv_ok (t : text) : bool :=
  match t with CsvText tb => issubset required (columns tb) | _ => false end.

(** Inputs of the worked runs. *)
Definition gold_results : DataFrame := [("A1", "Gold")].
Definition picks_silver : gmap string (gmap string string) :=
  {[ "Johan" := {[ "A1" := "Silver" ]} ]}.
Definition picks_gold : gmap string (gmap string string) :=
  {[ "Johan" := {[ "A1" := "Gold" ]} ]}.
Definition zero_row (p : string) : Entry := mkEntry p 0 0 0.
Definition picks_two : gmap string (gmap string string) :=
  <["Tony" := {[ "A1" := "Gold" ]}]> picks_silver.
Definition board_two : list Entry :=
  [mkEntry "Tony" 5 1 0; mkEntry "Johan" 2 0 1; zero_row "Göran";
   zero_row "Jesper"; zero_row "Peter"; zero_row "Magnus"].

(** A results file that stores the athlete A1 twice, one that stores a
    medal outside the enum, and a picks file that does. *)
Definition dup_world : world :=
  with_file RESULTS_CSV (to_csv [("A1", "Gold"); ("A1", "Silver")]) empty_world.
Definition platinum_results : world :=
  with_file RESULTS_CSV (to_csv [("A1", "Platinum")]) empty_world.
Definition platinum_picks : pyval :=
  PyDict {[ "Johan" := PyDict {[ "A1" := PyStr "Platinum" ]} ]}.
Definition platinum_world : world :=
  with_file PICKS_JSON (JsonText platinum_picks) empty_world.

(** Every value a picks document stores for a player's athlete is a medal
    of the enum. *)
Definition pick_values_in_enum (v : pyval) : Prop :=
  ∀ d p up a m, v = PyDict d → d !! p = Some (PyDict up) → up !! a = Some m →
    ∃ s, m = PyStr s ∧ s ∈ MEDALS.

(** * The rest of the script

    The roster loader, the start of a script run, the form of the tab
    "Lägg tips", the downloads of the tab "Backup / Restore" and the tab
    "Admin (resultat)".  Directories are not
    part of the file model, so [ensure_state_dir] has nothing to do in it.
    The pickers of sport and athlete and the tables shown on the pages only
    display. *)

(** ** The roster, lines 35-50 *)

Definition ATHLETES_CSV : string := "data/athletes.csv".

Definition athletes_required : list string := ["athlete_id"; "name"; "sport"].

Definition athletes_missing_msg : string :=
  "Saknar data/athletes.csv i repot. Lägg filen i mappen data/ och committa till GitHub.".
Definition athletes_columns_msg : string :=
  "athletes.csv måste ha kolumnerna: ['athlete_id', 'name', 'sport']".

(** [df.dropna(subset=cols)]: the records with a cell in every column of
    [cols]. *)
Definition dropna (cols : list string) (rs : list (gmap string string))
  : list (gmap string string) :=
  filter (λ r, Forall (λ c, is_Some (r !! c)) cols) rs.

(** Lines 47-49: the three columns as strings, i.e. the [str] of the values
    pandas read (for an id column read as integers, "1" where the file has
    01). *)
Definition athlete_of_row (r : gmap string string) : Athlete :=
  mkAthlete (astype_str (r !! "athlete_id")) (astype_str (r !! "name"))
            (astype_str (r !! "sport")).

Definition load_athletes : M (list Athlete) :=
  ex ← path_exists ATHLETES_CSV;
  (if (ex : bool) then mret ()
   else st_error athletes_missing_msg;; st_stop);;
  df ← read_csv ATHLETES_CSV;
  (if issubset athletes_required (columns df) then mret ()
   else st_error athletes_columns_msg;; st_stop);;
  let df := dropna athletes_required (rows df) in
  mret (athlete_of_row <$> df).

(** ** The start of a run, lines 120-123 *)

Definition session_start : M (list Athlete * DataFrame * pyval) :=
  athletes ← load_athletes;
  results ← load_results athletes;
  picks_all ← load_picks;
  mret (athletes, results, picks_all).

(** ** The form of the tab "Lägg tips", lines 149-164 *)

(** Line 149: [picks_all.get(player, {}).get(athlete_id, "None")]. *)
Definition existing_pick (picks_all : pyval) (player athlete_id : string)
  : outcome pyval :=
  user_picks ← py_get picks_all player (PyDict ∅);
  py_get user_picks athlete_id (PyStr "None").

(** [l.index(v)] for a [v] that is in [l]. *)
Fixpoint py_index (v : pyval) (l : list string) : nat :=
  match l with
  | [] => 0
  | s :: l' => if py_eq_str v s then 0 else S (py_index v l')
  end.

(** Lines 150 and 216:
    [MEDALS.index(v) if v in MEDALS else 0], the option a select box of
    medals starts on. *)
Definition medal_index (v : pyval) : nat :=
  if existsb (py_eq_str v) MEDALS then py_index v MEDALS else 0.

(** The button of the form that was pressed in this run, if any. *)
Inductive click := ClickSave | ClickRemove | NoClick.

(** The left column from line 149 on.  Line 149 raises unless [picks_all]
    is a dict and the player's entry, when there is one, is a dict; the
    lines after it run on these shapes.  [medal] is the option chosen in the
    select box.  The result is the session's picks object after the run.
    - [ClickSave], lines 155-158: [setdefault], the item assignment, the
      save;
    - [ClickRemove], lines 161-164: the [del] and the save, only when the
      player has an entry for the athlete. *)
Definition tips_form (picks_all : pyval) (player athlete_id medal : string)
    (c : click) : M pyval :=
  match picks_all with
  | PyDict d =>
      match default (PyDict ∅) (d !! player) with
      | PyDict up =>
          match c with
          | ClickSave =>
              let picks_all' :=
                PyDict (<[player := PyDict (<[athlete_id := PyStr medal]> up)]> d) in
              save_picks picks_all';;
              st_success "Sparat!";;
              mret picks_all'
          | ClickRemove =>
              if bool_decide (is_Some (d !! player) ∧ is_Some (up !! athlete_id))
              then
                let picks_all' :=
                  PyDict (<[player := PyDict (delete athlete_id up)]> d) in
                save_picks picks_all';;
                st_success "Borttaget!";;
                mret picks_all'
              else mret picks_all
          | NoClick => mret picks_all
          end
      | _ => raise AttributeError
      end
  | _ => raise AttributeError
  end.

(** ** The downloads, lines 228-241 *)

(** [PICKS_JSON.read_bytes() if PICKS_JSON.exists() else b"{}"] *)
Definition export_picks : M text :=
  ex ← path_exists PICKS_JSON;
  if (ex : bool) then read_text PICKS_JSON else mret (JsonText (PyDict ∅)).

(** [RESULTS_CSV.read_bytes() if RESULTS_CSV.exists() else b"athlete_id,medal\n"] *)
Definition export_results : M text :=
  ex ← path_exists RESULTS_CSV;
  if (ex : bool) then read_text RESULTS_CSV
  else mret (CsvText (mkTable ["athlete_id"; "medal"] [])).

(** ** Statements about the rest of the script *)

(** What the three loop counters keep, after at most [n] athletes: the
    points are five per exact pick and two per right medallist, and the two
    counts are natural numbers that share the [n] athletes. *)
Definition counters_ok (n : Z) (c : Counters) : Prop :=
  (total c = 5 * exact c + 2 * right_person c ∧
   0 ≤ exact c ∧ 0 ≤ right_person c ∧ exact c + right_person c ≤ n)%Z.
Definition entry_ok (n : Z) (e : Entry) : Prop :=
  (Poang e = 5 * Exakta e + 2 * Ratt_medaljor e ∧
   0 ≤ Exakta e ∧ 0 ≤ Ratt_medaljor e ∧ Exakta e + Ratt_medaljor e ≤ n)%Z.

(** A picks structure cut down to the athletes of a registry. *)
Definition registry_only (ids : list string)
    (picks : gmap string (gmap string string)) : gmap string (gmap string string) :=
  filter (λ kv, kv.1 ∈ ids) <$> picks.

(** A roster file of two records, the second without a name, and the
    state of a first run: the roster file and nothing else. *)
Definition roster_table : Table :=
  mkTable ["athlete_id"; "name"; "sport"]
    [ {[ "athlete_id" := "A1"; "name" := "Anna"; "sport" := "Skidor" ]};
      {[ "athlete_id" := "A2"; "sport" := "Curling" ]} ].
Definition fresh_world : world :=
  with_file ATHLETES_CSV (CsvText roster_table) empty_world.

(** ** The tab "Admin (resultat)", lines 189-224 *)

Definition ADMIN_PASSWORD : string := "admin".

(** Lines 192-196; [pwd] is the text of the password field. *)
Definition admin_ok (pwd : string) : bool :=
  if bool_decide (ADMIN_PASSWORD = "") then true
  else bool_decide (pwd = ADMIN_PASSWORD).

(** A record of [res]: the columns sport, name, athlete_id, medal; sport and
    name are NaN when no athlete of the roster has the id. *)
Record ResRow := mkResRow {
  res_sport : option string;
  res_name : option string;
  res_id : string;
  res_medal : string
}.

(** Line 203: [results.merge(athletes[["athlete_id", "name", "sport"]],
    on="athlete_id", how="left")]. *)
Definition merge_roster (results : DataFrame) (athletes : list Athlete)
  : list ResRow :=
  flat_map (λ r,
    match filter (λ a, athlete_id a = r.1) athletes with
    | [] => [mkResRow None None r.1 r.2]
    | ms => (λ a, mkResRow (Some (sport a)) (Some (name a)) r.1 r.2) <$> ms
    end) results.

(** The order of one sort column: strings by code point, NaN last. *)
Definition cell_compare (a b : option string) : comparison :=
  match a, b with
  | Some x, Some y => String.compare x y
  | Some _, None => Lt
  | None, Some _ => Gt
  | None, None => Eq
  end.

(** [res_le x y]: [x] need not come after [y] in
    [sort_values(["sport", "name"])]. *)
Definition res_le (x y : ResRow) : bool :=
  match cell_compare (res_sport x) (res_sport y) with
  | Lt => true
  | Gt => false
  | Eq => match cell_compare (res_name x) (res_name y) with
          | Gt => false
          | _ => true
          end
  end.

Fixpoint insert_asc (x : ResRow) (l : list ResRow) : list ResRow :=
  match l with
  | [] => [x]
  | y :: l' => if res_le x y then x :: y :: l' else y :: insert_asc x l'
  end.

(** Line 204: the stable sort by sport, then name. *)
Definition sort_values_sport_name (l : list ResRow) : list ResRow :=
  foldr insert_asc [] l.

(** [st.selectbox(label, options, index=index, key=key)]: the value the
    session holds for the widget's key, the option at [index] when it holds
    none. *)
Definition selectbox (session : gmap string string) (key : string)
    (options : list string) (index : nat) : string :=
  default (nth index options "") (session !! key).

(** The key of the select box of a record, line 217. *)
Definition admin_key (a : string) : string := "admin_" +:+ a.

(** The tab in one run: [None] when Streamlit refuses the page because two
    select boxes have one key; otherwise [Some None] when nothing is saved
    (wrong password, or the button not pressed) and [Some (Some out)] when
    [out] is handed to [save_results]. *)
Definition admin_tab (pwd : string) (session : gmap string string)
    (clicked : bool) (results : DataFrame) (athletes : list Athlete)
  : option (option DataFrame) :=
  if negb (admin_ok pwd) then Some None
  else
    let res := sort_values_sport_name (merge_roster results athletes) in
    if bool_decide (NoDup (admin_key ∘ res_id <$> res)) then
      let updated :=
        (λ row, (res_id row,
                 selectbox session (admin_key (res_id row)) MEDALS
                   (medal_index (PyStr (res_medal row))))) <$> res in
      if clicked then Some (Some updated) else Some None
    else None.

(** The medal the Admin tab saves for a record: the one chosen in its
    select box, else the stored one when it is of the enum, else None. *)
Definition admin_medal (session : gmap string string) (r : string * string)
  : string :=
  default (coerce_medal r.2) (session !! admin_key r.1).

(** * Properties *)

(** ** Scoring *)

Example score_examples :
  score_pick (PyStr "Bronze") "Silver" = 2%Z ∧
  score_pick (PyStr "Gold") "Bronze" = 2%Z ∧
  score_pick (PyStr "None") "Bronze" = 0%Z ∧
  score_pick (PyStr "Gold") "Gold" = 5%Z ∧
  score_pick (PyStr "Gold") "None" = 0%Z.
Proof. repeat split; reflexivity. Qed.

Lemma medal_str_MEDALS (m : Medal) : medal_str m ∈ MEDALS.
Proof. destruct m; unfold MEDALS; set_solver. Qed.

Lemma MEDALS_medal_str (s : string) : s ∈ MEDALS → ∃ m, s = medal_str m.
Proof.
  unfold MEDALS. intros H.
  repeat (apply elem_of_cons in H as [-> | H]);
    [by exists NoMedal | by exists Bronze | by exists Silver | by exists Gold |].
  by apply elem_of_nil in H.
Qed.

(** On strings the code computes the four branches in their order. *)
Lemma score_pick_str (pick actual : string) :
  score_pick (PyStr pick) actual =
    if decide (actual = "None") then 0%Z
    else if decide (pick = actual) then 5%Z
    else if decide (pick ≠ "None") then 2%Z
    else 0%Z.
Proof.
  unfold score_pick, py_eq_str.
  repeat case_bool_decide; repeat case_decide; simpl; congruence.
Qed.

(** C1. [score_pick] is a total function of two medals whose value is that
    of the four ordered branches of the scoring rule: 0 when the outcome is
    None, whatever the pick; else 5 when the pick equals the outcome; else 2
    when the pick is not None; else 0.  The strings of [MEDALS] are the four
    medals of the enum (first part); the rule holds on the enum (second
    part) and, branch for branch, on all strings (third part); no other
    value than 0, 2 and 5 is returned (fourth part). *)
Theorem score_pick_four_branches :
  (∀ s : string, s ∈ MEDALS ↔ ∃ m, s = medal_str m) ∧
  (∀ pick actual : Medal,
     score_pick (PyStr (medal_str pick)) (medal_str actual) = score pick actual) ∧
  (∀ pick actual : string,
     score_pick (PyStr pick) actual =
       if decide (actual = "None") then 0%Z
       else if decide (pick = actual) then 5%Z
       else if decide (pick ≠ "None") then 2%Z
       else 0%Z) ∧
  (∀ (pick : pyval) (actual : string),
     score_pick pick actual ∈ [0%Z; 2%Z; 5%Z]).
Proof.
  split; [| split; [| split]].
  - intros s. split; [apply MEDALS_medal_str |].
    intros [m ->]. apply medal_str_MEDALS.
  - intros [] []; reflexivity.
  - apply score_pick_str.
  - intros pick actual. unfold score_pick.
    repeat case_bool_decide; simpl; destruct (py_eq_str pick actual);
      try destruct (py_eq_str pick "None"); simpl; set_solver.
Qed.

(** ** Scoreboard *)

Lemma outcome_bind_Return {A B} (k : A → outcome B) (a : A) :
  (Return a ≫= k) = k a.
Proof. reflexivity. Qed.

Lemma outcome_bind_inv {A B} (m : outcome A) (k : A → outcome B) (b : B) :
  (m ≫= k) = Return b → ∃ a, m = Return a ∧ k a = Return b.
Proof. destruct m as [a | e |]; [by exists a | done | done]. Qed.

Lemma mapM_Return {A B} (f : A → outcome B) (g : A → B) (l : list A) :
  (∀ x, x ∈ l → f x = Return (g x)) → mapM f l = Return (g <$> l).
Proof.
  induction l as [| x l IH]; intros Hf; [reflexivity |].
  cbn [mapM]. rewrite Hf by left. rewrite outcome_bind_Return.
  rewrite IH by (intros y Hy; apply Hf; by right). reflexivity.
Qed.

Lemma mapM_ext_in {A B} (f g : A → outcome B) (l : list A) :
  (∀ x, x ∈ l → f x = g x) → mapM f l = mapM g l.
Proof.
  induction l as [| x l IH]; intros Hf; [reflexivity |].
  cbn [mapM]. rewrite Hf by left.
  rewrite IH by (intros y Hy; apply Hf; by right). reflexivity.
Qed.

Lemma mapM_player_names rm ids picks_all (l : list string) (rows : list Entry) :
  mapM (player_row rm ids picks_all) l = Return rows → Tippare <$> rows = l.
Proof.
  revert rows. induction l as [| p l IH]; intros rows.
  - cbn. by intros [= <-].
  - cbn [mapM]. intros H.
    apply outcome_bind_inv in H as (e & He & H).
    apply outcome_bind_inv in H as (rs & Hrs & H).
    injection H as <-. cbn. f_equal; [| by apply IH].
    unfold player_row in He.
    apply outcome_bind_inv in He as (up & _ & He).
    apply outcome_bind_inv in He as (c & _ & He).
    by injection He as <-.
Qed.

Lemma py_get_picks (picks : gmap string (gmap string string)) (p : string) :
  py_get (py_of_picks picks) p (PyDict ∅)
  = Return (PyDict (PyStr <$> default ∅ (picks !! p))).
Proof.
  unfold py_of_picks, py_get. rewrite lookup_fmap.
  destruct (picks !! p) as [up |]; cbn; [done |]. by rewrite fmap_empty.
Qed.

Lemma pick_of_default (picks : gmap string (gmap string string)) (p aid : string) :
  default "None" (default ∅ (picks !! p) !! aid) = pick_of picks p aid.
Proof. unfold pick_of. destruct (picks !! p); cbn; [done |]. by rewrite lookup_empty. Qed.

Section inner_loop.
Context (rm : gmap string string) (up : gmap string string).

(** One pass of the inner loop on a player's typed picks. *)
Lemma tally_typed (c : Counters) (aid : string) :
  let pick := default "None" (up !! aid) in
  let actual := default "None" (rm !! aid) in
  tally rm (PyDict (PyStr <$> up)) c aid =
    Return (mkCounters
      (total c + score_pick (PyStr pick) actual)
      (exact c + if decide (actual ≠ "None" ∧ pick = actual) then 1 else 0)
      (right_person c +
         if decide (actual ≠ "None" ∧ pick ≠ "None" ∧ pick ≠ actual) then 1 else 0)).
Proof.
  intros pick actual. unfold tally, py_get. rewrite lookup_fmap.
  rewrite outcome_bind_Return.
  replace (default (PyStr "None") (PyStr <$> up !! aid)) with (PyStr pick)
    by (unfold pick; by destruct (up !! aid)).
  fold actual. unfold py_eq_str.
  repeat case_bool_decide; repeat case_decide; cbn; f_equal; f_equal; lia || tauto || (exfalso; naive_solver).
Qed.

(** The inner loop: the three counters after all registry ids. *)
Lemma for_each_tally (ids : list string) (c : Counters) :
  let pick aid := default "None" (up !! aid) in
  let actual aid := default "None" (rm !! aid) in
  for_each (tally rm (PyDict (PyStr <$> up))) c ids =
    Return (mkCounters
      (total c + sum_Z ((λ aid, score_pick (PyStr (pick aid)) (actual aid)) <$> ids))
      (exact c + Z.of_nat (length (filter (λ aid,
         actual aid ≠ "None" ∧ pick aid = actual aid) ids)))
      (right_person c + Z.of_nat (length (filter (λ aid,
         actual aid ≠ "None" ∧ pick aid ≠ "None" ∧ pick aid ≠ actual aid) ids)))).
Proof.
  intros pick actual. revert c.
  induction ids as [| aid ids IH]; intros c.
  - cbn. destruct c; cbn. f_equal. f_equal; lia.
  - cbn [for_each]. rewrite tally_typed, outcome_bind_Return, IH.
    fold (pick aid) (actual aid). cbn [total exact right_person].
    rewrite !filter_cons, fmap_cons. cbn [sum_Z foldr].
    fold (sum_Z ((λ aid, score_pick (PyStr (pick aid)) (actual aid)) <$> ids)).
    f_equal. repeat case_decide; cbn [length]; f_equal; lia.
Qed.

End inner_loop.

Lemma player_row_typed (athletes : list Athlete) (results : DataFrame)
    (picks : gmap string (gmap string string)) (p : string) :
  player_row (dict_zip results) (athlete_id <$> athletes) (py_of_picks picks) p
  = Return (spec_entry athletes results picks p).
Proof.
  unfold player_row. rewrite py_get_picks, outcome_bind_Return.
  rewrite for_each_tally, outcome_bind_Return. cbn [total exact right_person].
  unfold spec_entry, total_points, exact_count, partial_count, actual_of.
  f_equal. f_equal.
  - rewrite Z.add_0_l. f_equal. apply list_fmap_ext. intros _ aid _.
    by rewrite pick_of_default.
  - rewrite Z.add_0_l. f_equal. f_equal. apply list_filter_iff. intros aid.
    by rewrite pick_of_default.
  - rewrite Z.add_0_l. f_equal. f_equal. apply list_filter_iff. intros aid.
    by rewrite pick_of_default.
Qed.

(** On a typed picks structure the builder returns, and its rows are the
    per-player figures of the specification, sorted. *)
Lemma build_scoreboard_typed (athletes : list Athlete) (results : DataFrame)
    (picks : gmap string (gmap string string)) :
  build_scoreboard athletes results (py_of_picks picks)
  = Return (sort_values (spec_entry athletes results picks <$> PLAYERS)).
Proof.
  unfold build_scoreboard.
  rewrite (mapM_Return _ (spec_entry athletes results picks)).
  - reflexivity.
  - intros p _. apply player_row_typed.
Qed.

(** *** The sort *)

Lemma key_le_spec (a b : Z * Z) :
  key_le a b = true ↔ (a.1 < b.1)%Z ∨ (a.1 = b.1 ∧ (a.2 ≤ b.2)%Z).
Proof.
  unfold key_le.
  rewrite orb_true_iff, andb_true_iff, Z.ltb_lt, Z.eqb_eq, Z.leb_le. tauto.
Qed.

Lemma outranks_key_le (a b : Entry) :
  outranks a b ↔ key_le (sort_key b) (sort_key a) = true.
Proof. rewrite key_le_spec. unfold outranks, sort_key. cbn. intuition lia. Qed.

Lemma outranks_trans (a b c : Entry) : outranks a b → outranks b c → outranks a c.
Proof. unfold outranks. intuition lia. Qed.

Lemma outranks_total (a b : Entry) : outranks a b ∨ outranks b a.
Proof. unfold outranks. lia. Qed.

(** A record that is strictly outranked has another key. *)
Lemma not_key_le_neq (x y : Entry) :
  key_le (sort_key y) (sort_key x) = false → sort_key y ≠ sort_key x.
Proof.
  intros H Heq. rewrite Heq in H.
  assert (key_le (sort_key x) (sort_key x) = true) as Hr
    by (apply key_le_spec; right; split; [done | lia]).
  congruence.
Qed.

Lemma insert_desc_Permutation (x : Entry) (l : list Entry) :
  insert_desc x l ≡ₚ x :: l.
Proof.
  induction l as [| y l IH]; cbn; [done |].
  destruct (key_le (sort_key y) (sort_key x)); [done |].
  rewrite IH. apply Permutation_swap.
Qed.

Lemma insert_desc_sorted (x : Entry) (l : list Entry) :
  StronglySorted outranks l → StronglySorted outranks (insert_desc x l).
Proof.
  induction 1 as [| y l Hl IH Hy]; cbn.
  - repeat constructor.
  - destruct (key_le (sort_key y) (sort_key x)) eqn:Hk.
    + apply outranks_key_le in Hk.
      constructor; [by constructor |].
      constructor; [done |].
      eapply Forall_impl; [exact Hy |]. intros z Hz. by eapply outranks_trans.
    + constructor; [done |].
      rewrite insert_desc_Permutation. constructor; [| done].
      destruct (outranks_total y x) as [| Hxy]; [done |].
      apply outranks_key_le in Hxy. congruence.
Qed.

Lemma insert_desc_filter (k : Z * Z) (x : Entry) (l : list Entry) :
  filter (λ e, sort_key e = k) (insert_desc x l)
  = filter (λ e, sort_key e = k) (x :: l).
Proof.
  induction l as [| y l IH]; cbn [insert_desc]; [done |].
  destruct (key_le (sort_key y) (sort_key x)) eqn:Hk; [done |].
  apply not_key_le_neq in Hk.
  rewrite (filter_cons _ y), IH, !filter_cons.
  repeat case_decide; congruence.
Qed.

Lemma sort_values_Permutation (l : list Entry) : sort_values l ≡ₚ l.
Proof.
  induction l as [| x l IH]; cbn; [done |].
  by rewrite insert_desc_Permutation, IH.
Qed.

Lemma sort_values_sorted (l : list Entry) : StronglySorted outranks (sort_values l).
Proof.
  induction l as [| x l IH]; cbn; [constructor |]. by apply insert_desc_sorted.
Qed.

(** Stability: the records of one key keep the order they came in. *)
Lemma sort_values_stable (k : Z * Z) (l : list Entry) :
  filter (λ e, sort_key e = k) (sort_values l) = filter (λ e, sort_key e = k) l.
Proof.
  induction l as [| x l IH]; cbn [sort_values foldr]; [done |].
  fold (sort_values l). by rewrite insert_desc_filter, !filter_cons, IH.
Qed.

Lemma PLAYERS_NoDup : NoDup PLAYERS.
Proof. apply (bool_decide_unpack _). by vm_compute. Qed.

Lemma roster_only_lookup {V} (m : gmap string V) (p : string) :
  p ∈ PLAYERS → roster_only m !! p = m !! p.
Proof.
  intros Hp. unfold roster_only. rewrite map_lookup_filter.
  destruct (m !! p); cbn; [| done]. by rewrite option_guard_True.
Qed.

(** C2. For every registry, results frame and picks structure the builder
    returns a scoreboard whose rows are, up to their order, one row per
    roster player holding: the sum of [score_pick] over every registry id
    (pick and outcome defaulting to None), the number of ids whose outcome is
    not None and equals the pick, and the number of ids whose outcome and
    pick are both not None and differ.  The two scenarios of the
    specification evaluate to 2/0/1 and to 5/1/0 for the player who picked,
    and to 0/0/0 for everyone else. *)
Theorem build_scoreboard_totals (athletes : list Athlete) (results : DataFrame)
    (picks : gmap string (gmap string string)) :
  (∃ sb, build_scoreboard athletes results (py_of_picks picks) = Return sb ∧
         sb ≡ₚ spec_entry athletes results picks <$> PLAYERS) ∧
  build_scoreboard [A1] gold_results (py_of_picks picks_silver)
    = Return (mkEntry "Johan" 2 0 1
              :: (zero_row <$> ["Göran"; "Jesper"; "Peter"; "Magnus"; "Tony"])) ∧
  build_scoreboard [A1] gold_results (py_of_picks picks_gold)
    = Return (mkEntry "Johan" 5 1 0
              :: (zero_row <$> ["Göran"; "Jesper"; "Peter"; "Magnus"; "Tony"])).
Proof.
  split; [| split].
  - eexists. split; [apply build_scoreboard_typed |].
    apply sort_values_Permutation.
  - vm_compute. reflexivity.
  - vm_compute. reflexivity.
Qed.

(** C6. Whenever the builder returns a scoreboard, it is the list of the
    players' rows, computed in roster order, rearranged so that every row
    outranks all rows after it: more points first, and among equal points
    the higher exact count first.  Rows that tie on both columns keep the
    order of the roster, so the order is a function of the input alone. *)
Theorem build_scoreboard_sorted_stable (athletes : list Athlete)
    (results : DataFrame) (picks_all : pyval) (sb : list Entry) :
  build_scoreboard athletes results picks_all = Return sb →
  ∃ rows,
    mapM (player_row (dict_zip results) (athlete_id <$> athletes) picks_all) PLAYERS
      = Return rows ∧
    Tippare <$> rows = PLAYERS ∧
    sb ≡ₚ rows ∧
    StronglySorted outranks sb ∧
    ∀ k, filter (λ e, sort_key e = k) sb = filter (λ e, sort_key e = k) rows.
Proof.
  unfold build_scoreboard. intros H.
  apply outcome_bind_inv in H as (rows & Hrows & H). injection H as <-.
  exists rows. split; [done |].
  split; [by eapply mapM_player_names |].
  split; [apply sort_values_Permutation |].
  split; [apply sort_values_sorted |].
  intros k. apply sort_values_stable.
Qed.

Lemma build_scoreboard_sorted_stable_witness :
  build_scoreboard [A1] gold_results (py_of_picks picks_two) = Return board_two ∧
  ∃ rows,
    mapM (player_row (dict_zip gold_results) (athlete_id <$> [A1])
            (py_of_picks picks_two)) PLAYERS = Return rows ∧
    Tippare <$> rows = PLAYERS ∧
    board_two ≡ₚ rows ∧
    StronglySorted outranks board_two ∧
    ∀ k, filter (λ e, sort_key e = k) board_two
         = filter (λ e, sort_key e = k) rows.
Proof.
  assert (build_scoreboard [A1] gold_results (py_of_picks picks_two)
          = Return board_two) as H by (vm_compute; reflexivity).
  split; [exact H |].
  exact (build_scoreboard_sorted_stable [A1] gold_results _ board_two H).
Defined.

(** C10. The roster has six distinct players; for every registry, results
    frame and picks structure the builder returns a scoreboard whose player
    column is a rearrangement of the roster, and the same scoreboard results
    when every key outside the roster is removed from the picks.  The last
    holds for any dict of picks, whatever its values. *)
Theorem build_scoreboard_roster_only (athletes : list Athlete)
    (results : DataFrame) :
  NoDup PLAYERS ∧ length PLAYERS = 6 ∧
  (∀ picks : gmap string (gmap string string),
     ∃ sb, build_scoreboard athletes results (py_of_picks picks) = Return sb ∧
           Tippare <$> sb ≡ₚ PLAYERS ∧
           build_scoreboard athletes results (py_of_picks (roster_only picks))
             = Return sb) ∧
  (∀ d : gmap string pyval,
     build_scoreboard athletes results (PyDict (roster_only d))
     = build_scoreboard athletes results (PyDict d)).
Proof.
  assert (∀ d : gmap string pyval,
     build_scoreboard athletes results (PyDict (roster_only d))
     = build_scoreboard athletes results (PyDict d)) as Hd.
  { intros d. unfold build_scoreboard. f_equal.
    apply mapM_ext_in. intros p Hp. unfold player_row, py_get.
    by rewrite roster_only_lookup. }
  split; [apply PLAYERS_NoDup |]. split; [reflexivity |]. split; [| exact Hd].
  intros picks. eexists. split; [apply build_scoreboard_typed |]. split.
  - by rewrite sort_values_Permutation.
  - rewrite build_scoreboard_typed. do 2 f_equal.
    apply list_fmap_ext. intros i p Hp%list_elem_of_lookup_2.
    unfold spec_entry, total_points, exact_count, partial_count, pick_of.
    by rewrite roster_only_lookup.
Qed.

(** ** Files *)

Lemma string_length_app (a b : string) :
  String.length (a +:+ b) = String.length a + String.length b.
Proof. induction a as [| c a IH]; simpl; [done |]. by f_equal. Qed.

Lemma tmp_of_ne (path : string) : tmp_of path ≠ path.
Proof.
  unfold tmp_of. intros H. apply (f_equal String.length) in H.
  rewrite string_length_app in H. cbn in H. lia.
Qed.

(** The whole of [atomic_write_text]: the target holds the text and the
    temporary file is gone. *)
Lemma atomic_write_text_run (path : string) (t : text) (σ : world) :
  atomic_write_text path t σ
  = (Return (), World (<[path := t]> (delete (tmp_of path) (files σ))) (shown σ)).
Proof.
  unfold atomic_write_text, atomic_write_text_gen, mbind, M_bind.
  cbn [call_write_text call_replace M_calls]. unfold write_text, replace. cbn.
  rewrite lookup_insert_eq. by rewrite delete_insert_eq.
Qed.

(** Running a bind: the continuation takes over when the first part
    returns, and is skipped when it raises or stops. *)
Lemma bind_run {A B} (m : M A) (k : A → M B) (σ σ' : world) (a : A) :
  m σ = (Return a, σ') → (m ≫= k) σ = k a σ'.
Proof. intros H. unfold mbind, M_bind. by rewrite H. Qed.

Lemma bind_run_raise {A B} (m : M A) (k : A → M B) (σ σ' : world) (e : exn) :
  m σ = (Raise e, σ') → (m ≫= k) σ = (Raise e, σ').
Proof. intros H. unfold mbind, M_bind. by rewrite H. Qed.

Lemma bind_run_stopped {A B} (m : M A) (k : A → M B) (σ σ' : world) :
  m σ = (Stopped, σ') → (m ≫= k) σ = (Stopped, σ').
Proof. intros H. unfold mbind, M_bind. by rewrite H. Qed.

Lemma path_exists_Some (p : string) (t : text) (σ : world) :
  files σ !! p = Some t → path_exists p σ = (Return true, σ).
Proof. intros H. unfold path_exists. by rewrite H. Qed.

Lemma path_exists_None (p : string) (σ : world) :
  files σ !! p = None → path_exists p σ = (Return false, σ).
Proof. intros H. unfold path_exists. by rewrite H. Qed.

Lemma read_text_Some (p : string) (t : text) (σ : world) :
  files σ !! p = Some t → read_text p σ = (Return t, σ).
Proof. intros H. unfold read_text. by rewrite H. Qed.

Lemma read_csv_table (p : string) (tb : Table) (σ : world) :
  files σ !! p = Some (CsvText tb) → read_csv p σ = (Return tb, σ).
Proof.
  intros H. unfold read_csv. by rewrite (bind_run _ _ σ σ (CsvText tb)) by by apply read_text_Some.
Qed.

Lemma read_csv_other (p : string) (t : text) (σ : world) :
  files σ !! p = Some t → (∀ tb, t ≠ CsvText tb) →
  read_csv p σ = (Raise ParserError, σ).
Proof.
  intros H Ht. unfold read_csv.
  rewrite (bind_run _ _ σ σ t) by by apply read_text_Some.
  destruct t as [tb | v | s]; [by destruct (Ht tb) | done | done].
Qed.

(** ** ResultStore *)

Lemma str_columns_to_csv (df : DataFrame) :
  str_columns (mkTable ["athlete_id"; "medal"]
     ((λ r, {[ "athlete_id" := r.1; "medal" := r.2 ]}) <$> df)) = df.
Proof.
  unfold str_columns. cbn [rows]. rewrite <- list_fmap_compose.
  rewrite <- (list_fmap_id df) at 2. apply list_fmap_ext. intros _ [a m] _. cbn.
  rewrite lookup_insert_eq, lookup_insert_ne by done.
  by rewrite lookup_singleton_eq.
Qed.

(** What [load_results] computes from a table that has both columns. *)
Lemma load_results_present (athletes : list Athlete) (σ : world) (tb : Table) :
  files σ !! RESULTS_CSV = Some (CsvText tb) →
  issubset required (columns tb) = true →
  load_results athletes σ
  = (Return (fillna (merge_left (athlete_id <$> athletes)
                       (coerce_medals (str_columns tb)))), σ).
Proof.
  intros Hf Hc. unfold load_results.
  rewrite (bind_run _ _ σ σ true) by by eapply path_exists_Some.
  rewrite (bind_run _ _ σ σ ()) by done.
  rewrite (bind_run _ _ σ σ tb) by by apply read_csv_table.
  rewrite Hc. by rewrite (bind_run _ _ σ σ ()).
Qed.

Lemma load_results_missing_columns (athletes : list Athlete) (σ : world) (tb : Table) :
  files σ !! RESULTS_CSV = Some (CsvText tb) →
  issubset required (columns tb) = false →
  load_results athletes σ
  = (Stopped, World (files σ) (shown σ ++ [StError results_columns_msg])).
Proof.
  intros Hf Hc. unfold load_results.
  rewrite (bind_run _ _ σ σ true) by by eapply path_exists_Some.
  rewrite (bind_run _ _ σ σ ()) by done.
  rewrite (bind_run _ _ σ σ tb) by by apply read_csv_table.
  rewrite Hc. by erewrite bind_run_stopped.
Qed.

Lemma load_results_unparseable (athletes : list Athlete) (σ : world) (t : text) :
  files σ !! RESULTS_CSV = Some t →
  (∀ tb, t ≠ CsvText tb) →
  load_results athletes σ = (Raise ParserError, σ).
Proof.
  intros Hf Ht. unfold load_results.
  rewrite (bind_run _ _ σ σ true) by by eapply path_exists_Some.
  rewrite (bind_run _ _ σ σ ()) by done.
  by rewrite (bind_run_raise _ _ σ σ ParserError) by by eapply read_csv_other.
Qed.

(** The first load: the seed is written, read back and merged.  The frame
    read back is the seed as [to_csv] gives it; what the theorems draw from
    this lemma does not depend on the ids read. *)
Lemma load_results_absent (athletes : list Athlete) (σ : world) :
  files σ !! RESULTS_CSV = None →
  load_results athletes σ
  = (Return (fillna (merge_left (athlete_id <$> athletes)
                       (coerce_medals (seed athletes)))),
     World (<[RESULTS_CSV := to_csv (seed athletes)]>
              (delete (tmp_of RESULTS_CSV) (files σ))) (shown σ)).
Proof.
  intros Hf. unfold load_results.
  rewrite (bind_run _ _ σ σ false) by by apply path_exists_None.
  erewrite bind_run by apply atomic_write_text_run.
  erewrite bind_run by (apply read_csv_table; apply lookup_insert_eq).
  erewrite bind_run by done.
  by rewrite str_columns_to_csv.
Qed.

(** *** Coercion *)

Lemma coerce_medal_MEDALS (m : string) : coerce_medal m ∈ MEDALS.
Proof.
  unfold coerce_medal. case_bool_decide; [done |].
  unfold MEDALS. apply list_elem_of_here.
Qed.

Lemma coerce_medal_id (m : string) : m ∈ MEDALS → coerce_medal m = m.
Proof. intros H. unfold coerce_medal. by rewrite bool_decide_eq_true_2. Qed.

Lemma coerce_medals_Forall (df : DataFrame) :
  Forall (λ r, r.2 ∈ MEDALS) (coerce_medals df).
Proof.
  unfold coerce_medals. apply Forall_fmap, Forall_true.
  intros r. apply coerce_medal_MEDALS.
Qed.

Lemma coerce_medals_id (df : DataFrame) :
  Forall (λ r, r.2 ∈ MEDALS) df → coerce_medals df = df.
Proof.
  induction 1 as [| [a m] df Hm _ IH]; [done |].
  unfold coerce_medals in *. cbn in *. by rewrite IH, coerce_medal_id.
Qed.

Lemma coerce_medals_idemp (df : DataFrame) :
  coerce_medals (coerce_medals df) = coerce_medals df.
Proof. apply coerce_medals_id, coerce_medals_Forall. Qed.

(** *** The left merge *)

Lemma merge_left_cons (a : string) (ids : list string) (df : DataFrame) :
  merge_left (a :: ids) df
  = ((match stored_under df a with
      | [] => [(a, None)]
      | ms => (λ r, (a, Some r.2)) <$> ms
      end) ++ merge_left ids df)%list.
Proof. reflexivity. Qed.

Lemma stored_under_elem (df : DataFrame) (a : string) (r : string * string) :
  r ∈ stored_under df a ↔ r ∈ df ∧ r.1 = a.
Proof. unfold stored_under. rewrite list_elem_of_filter. tauto. Qed.

(** Every medal of the merged frame is a medal of the frame or the None
    that fills a missing record. *)
Lemma fillna_merge_left_medals (ids : list string) (df : DataFrame) :
  Forall (λ r, r.2 ∈ MEDALS) df →
  Forall (λ r, r.2 ∈ MEDALS) (fillna (merge_left ids df)).
Proof.
  intros Hdf. induction ids as [| a ids IH]; [constructor |].
  rewrite merge_left_cons. unfold fillna in *. rewrite fmap_app.
  apply Forall_app. split; [| exact IH].
  destruct (stored_under df a) as [| r ms] eqn:Hs.
  - repeat constructor.
  - rewrite <- list_fmap_compose. apply Forall_fmap, Forall_forall.
    intros r' Hr'. cbn. rewrite <- Hs in Hr'.
    apply stored_under_elem in Hr' as [Hr' _].
    by eapply (proj1 (Forall_forall _ _) Hdf).
Qed.

(** When no registry id is stored twice, the merged frame has one record
    per registry id, in registry order, with the medal stored under it. *)
Lemma merge_left_at_most_once (ids : list string) (df : DataFrame) :
  Forall (λ a, (length (stored_under df a) ≤ 1)%nat) ids →
  fillna (merge_left ids df) = (λ a, (a, stored_medal df a)) <$> ids.
Proof.
  induction 1 as [| a ids Ha _ IH]; [done |].
  rewrite merge_left_cons. unfold fillna in *. rewrite fmap_app, IH, fmap_cons.
  unfold stored_medal.
  destruct (stored_under df a) as [| r [| r' ms]]; cbn in *; [done | done | lia].
Qed.

Lemma merge_left_keeps (ids : list string) (df : DataFrame) (a m : string) :
  a ∈ ids → (a, m) ∈ df → (a, m) ∈ fillna (merge_left ids df).
Proof.
  intros Ha Hm. induction ids as [| a' ids IH]; [by apply elem_of_nil in Ha |].
  rewrite merge_left_cons. unfold fillna in *. rewrite fmap_app, elem_of_app.
  apply elem_of_cons in Ha as [<- | Ha]; [left | right; by apply IH].
  assert ((a, m) ∈ stored_under df a) as Hs by by apply stored_under_elem.
  destruct (stored_under df a) as [| r ms]; [by apply elem_of_nil in Hs |].
  rewrite <- list_fmap_compose. apply list_elem_of_fmap. by exists (a, m).
Qed.



(** A property of the medals of the frame, and of the None that fills a
    missing record, is a property of the medals of the merged frame. *)
Lemma fillna_merge_left_Forall (P : string → Prop) (ids : list string)
    (df : DataFrame) :
  P "None" → Forall (λ r, P r.2) df →
  Forall (λ r, P r.2) (fillna (merge_left ids df)).
Proof.
  intros HP Hdf. induction ids as [| a ids IH]; [constructor |].
  rewrite merge_left_cons. unfold fillna in *. rewrite fmap_app.
  apply Forall_app. split; [| exact IH].
  destruct (stored_under df a) as [| r ms] eqn:Hs.
  - by repeat constructor.
  - rewrite <- list_fmap_compose. apply Forall_fmap, Forall_forall.
    intros r' Hr'. cbn. rewrite <- Hs in Hr'.
    apply stored_under_elem in Hr' as [Hr' _].
    by apply (proj1 (Forall_forall _ _) Hdf).
Qed.

(** The merged frame mentions the ids of the registry and no other. *)
Lemma merge_left_block_ids (df : DataFrame) (a : string) :
  ∃ m ms, fillna (match stored_under df a with
                  | [] => [(a, None)]
                  | ms => (λ r, (a, Some r.2)) <$> ms
                  end) = (a, m) :: ms ∧ Forall (λ r, r.1 = a) ms.
Proof.
  unfold fillna. destruct (stored_under df a) as [| r ms]; [by exists "None", [] |].
  exists r.2, ((λ r0, (a, r0.2)) <$> ms). split.
  - cbn. f_equal. by rewrite <- list_fmap_compose.
  - by apply Forall_fmap, Forall_true.
Qed.

Lemma merge_left_ids (ids : list string) (df : DataFrame) :
  (∀ a, a ∈ (fillna (merge_left ids df)).*1 ↔ a ∈ ids) ∧
  (length ids ≤ length (fillna (merge_left ids df)))%nat.
Proof.
  induction ids as [| a ids [IH1 IH2]]; [split; [done | cbn; lia] |].
  rewrite merge_left_cons. unfold fillna in *. rewrite fmap_app.
  destruct (merge_left_block_ids df a) as (m & ms & Hb & Hms).
  unfold fillna in Hb. rewrite Hb. split.
  - intros a'. rewrite fmap_app, elem_of_app, IH1, fmap_cons, !elem_of_cons.
    cbn. split; [| tauto].
    intros [[-> | Hin] | Hin]; [by left | left | by right].
    apply list_elem_of_fmap in Hin as (r & -> & Hr).
    by apply (proj1 (Forall_forall _ _) Hms).
  - rewrite length_app. cbn. lia.
Qed.

(** ** PickStore *)

(** [load_picks] always returns: the stored document when there is one,
    the empty dict otherwise; it changes nothing. *)
Lemma load_picks_run (σ : world) :
  load_picks σ
  = (Return (match files σ !! PICKS_JSON with
             | Some (JsonText v) => v
             | _ => PyDict ∅
             end), σ).
Proof.
  unfold load_picks. destruct (files σ !! PICKS_JSON) as [t |] eqn:Hf.
  - rewrite (bind_run _ _ σ σ true) by by eapply path_exists_Some.
    cbn [negb]. unfold try_except.
    rewrite (bind_run _ _ σ σ t) by by apply read_text_Some.
    by destruct t.
  - by rewrite (bind_run _ _ σ σ false) by by apply path_exists_None.
Qed.

Lemma save_results_run (df : DataFrame) (σ : world) :
  save_results df σ
  = (Return (), World (<[RESULTS_CSV := to_csv df]>
                         (delete (tmp_of RESULTS_CSV) (files σ))) (shown σ)).
Proof. apply atomic_write_text_run. Qed.

Lemma save_picks_run (v : pyval) (σ : world) :
  save_picks v σ
  = (Return (), World (<[PICKS_JSON := JsonText v]>
                         (delete (tmp_of PICKS_JSON) (files σ))) (shown σ)).
Proof. apply atomic_write_text_run. Qed.

(** ** The claims on the stores *)

(** An unknown medal string is coerced for its athlete only; an id that is
    not in the registry is dropped and a registry id that is not stored gets
    None. *)
Example load_results_self_healing :
  (load_results [A1; mkAthlete "A2" "Bo" "Skidor"; mkAthlete "A3" "Cia" "Curling"]
     (with_file RESULTS_CSV
        (to_csv [("A2", "Silver"); ("Z9", "Gold"); ("A1", "Platinum")])
        empty_world)).1
  = Return [("A1", "None"); ("A2", "Silver"); ("A3", "None")].
Proof. vm_compute. reflexivity. Qed.





Example load_picks_platinum :
  load_picks platinum_world = (Return platinum_picks, platinum_world).
Proof. apply load_picks_run. Qed.

(** C4, as stated, fails for the PickStore: a stored pick outside the enum
    is returned by [load_picks] as it is stored. *)
Lemma load_picks_unknown_medal_counterexample :
  ¬ (∀ (σ σ' : world) (v : pyval),
       load_picks σ = (Return v, σ') → pick_values_in_enum v).
Proof.
  intros H. specialize (H _ _ _ load_picks_platinum).
  destruct (H _ "Johan" {[ "A1" := PyStr "Platinum" ]} "A1" (PyStr "Platinum") eq_refl)
    as (s & Hs & Hin); [done | done |].
  injection Hs as <-.
  exact (bool_decide_eq_false_1 ("Platinum" ∈ MEDALS) eq_refl Hin).
Qed.

(** C4, amended.  After every load of the ResultStore that returns, every
    medal of the loaded frame is one of None, Bronze, Silver, Gold: a medal
    stored for a registry athlete appears coerced, hence as None when it is
    outside the enum, and the load is not rejected for it.  The PickStore
    does not coerce: [load_picks] returns the stored document unchanged. *)
Theorem load_results_medals_in_enum (athletes : list Athlete) (σ σ' : world)
    (merged : DataFrame) :
  load_results athletes σ = (Return merged, σ') →
  Forall (λ r, r.2 ∈ MEDALS) merged ∧
  (∀ tb, files σ !! RESULTS_CSV = Some (CsvText tb) →
     ∀ a m, a ∈ athlete_id <$> athletes → (a, m) ∈ str_columns tb →
       (a, coerce_medal m) ∈ merged) ∧
  (∀ v, files σ !! PICKS_JSON = Some (JsonText v) → load_picks σ = (Return v, σ)).
Proof.
  intros Hl. split; [| split].
  - destruct (files σ !! RESULTS_CSV) as [[tb | v | s] |] eqn:Hf.
    + destruct (issubset required (columns tb)) eqn:Hc.
      * rewrite (load_results_present _ _ tb) in Hl by done. injection Hl as <- _.
        apply fillna_merge_left_medals, coerce_medals_Forall.
      * by rewrite (load_results_missing_columns _ _ tb) in Hl.
    + by rewrite (load_results_unparseable _ _ (JsonText v)) in Hl.
    + by rewrite (load_results_unparseable _ _ (OtherText s)) in Hl.
    + rewrite load_results_absent in Hl by done. injection Hl as <- _.
      apply fillna_merge_left_medals, coerce_medals_Forall.
  - intros tb Hf a m Ha Hm.
    destruct (issubset required (columns tb)) eqn:Hc.
    + rewrite (load_results_present _ _ tb) in Hl by done. injection Hl as <- _.
      apply merge_left_keeps; [done |].
      unfold coerce_medals. apply list_elem_of_fmap. by exists (a, m).
    + by rewrite (load_results_missing_columns _ _ tb) in Hl.
  - intros v Hf. by rewrite load_picks_run, Hf.
Qed.

Lemma load_results_medals_in_enum_witness :
  load_results [A1] platinum_results = (Return [("A1", "None")], platinum_results) ∧
  Forall (λ r : string * string, r.2 ∈ MEDALS) [("A1", "None")] ∧
  ("A1", coerce_medal "Platinum") ∈ [("A1", "None")].
Proof.
  assert (load_results [A1] platinum_results
          = (Return [("A1", "None")], platinum_results)) as Hl
    by (vm_compute; reflexivity).
  split; [exact Hl |].
  destruct (load_results_medals_in_enum [A1] platinum_results platinum_results
              [("A1", "None")] Hl) as (Hm & Hc & _).
  split; [exact Hm |].
  eapply Hc; [reflexivity | by left | by left].
Defined.

(** C5. The ResultStore is strict: a results file that parses but lacks a
    required column stops the run with the error shown and no frame
    returned, and a file that does not parse raises out of the load, in both
    cases with no file changed.  The PickStore is lenient: [load_picks]
    returns on every state, and what it returns for a missing picks file or
    one that does not parse is the empty dict. *)
Theorem store_failure_asymmetry (athletes : list Athlete) (σ : world) :
  (∀ tb, files σ !! RESULTS_CSV = Some (CsvText tb) →
     issubset required (columns tb) = false →
     load_results athletes σ
     = (Stopped, World (files σ) (shown σ ++ [StError results_columns_msg]))) ∧
  (∀ t, files σ !! RESULTS_CSV = Some t → (∀ tb, t ≠ CsvText tb) →
     load_results athletes σ = (Raise ParserError, σ)) ∧
  (∃ v, load_picks σ = (Return v, σ)) ∧
  (files σ !! PICKS_JSON = None → load_picks σ = (Return (PyDict ∅), σ)) ∧
  (∀ t, files σ !! PICKS_JSON = Some t → json_ok t = false →
     load_picks σ = (Return (PyDict ∅), σ)).
Proof.
  split; [| split; [| split; [| split]]].
  - intros tb. apply load_results_missing_columns.
  - intros t. apply load_results_unparseable.
  - eexists. apply load_picks_run.
  - intros Hf. by rewrite load_picks_run, Hf.
  - intros t Hf Ht. rewrite load_picks_run, Hf. by destruct t.
Qed.

(** *** Crash safety of the write *)

(** Each call of pathlib leaves the files its system calls leave. *)
Lemma write_text_syscalls (p : string) (t torn : text) (σ : world) :
  write_text p t σ
  = (Return (),
     World (foldl sys_run (files σ)
              (call_write_text (PathCalls := syscalls_of torn) p t).1) (shown σ)).
Proof.
  unfold write_text. cbn. f_equal. f_equal.
  by rewrite !insert_insert_eq.
Qed.

Lemma replace_syscalls (src dst : string) (torn : text) (σ : world) :
  is_Some (files σ !! src) →
  replace src dst σ
  = (Return (),
     World (foldl sys_run (files σ)
              (call_replace (PathCalls := syscalls_of torn) src dst).1) (shown σ)).
Proof. intros [u Hu]. unfold replace. cbn. by rewrite Hu. Qed.





(** *** Saving, then loading

    The picks file gives back the value saved.  A results file gives back
    the records it reads as; whether it reads as the frame saved is up to the
    types pandas infers for the id column, which the model leaves open. *)

Lemma save_load_picks (v : pyval) (σ : world) :
  ∃ σ', (save_picks v;; load_picks) σ = (Return v, σ') ∧
        files σ' !! PICKS_JSON = Some (json_dumps v).
Proof.
  eexists. split.
  - erewrite bind_run by apply save_picks_run.
    rewrite load_picks_run. cbn [files]. by rewrite lookup_insert_eq.
  - cbn. apply lookup_insert_eq.
Qed.

(** The registry id 01 against a results file whose one record pandas reads
    as the number 1 with the medal Gold: the id is not found and the athlete
    loads as None. *)
Example load_results_retyped_id :
  load_results [mkAthlete "01" "Anna" "Skidor"]
    (with_file RESULTS_CSV
       (CsvText (mkTable ["athlete_id"; "medal"]
                   [{[ "athlete_id" := "1"; "medal" := "Gold" ]}]))
       empty_world)
  = (Return [("01", "None")],
     with_file RESULTS_CSV
       (CsvText (mkTable ["athlete_id"; "medal"]
                   [{[ "athlete_id" := "1"; "medal" := "Gold" ]}]))
       empty_world).
Proof. vm_compute. reflexivity. Qed.

(** *** Restore *)

Lemma restore_picks_ok (v : pyval) (σ : world) :
  restore_picks (JsonText v) σ
  = (Return (), World (<[PICKS_JSON := JsonText v]>
                         (delete (tmp_of PICKS_JSON) (files σ)))
                      (shown σ ++ [StSuccess "Återställde picks.json!"])).
Proof.
  unfold restore_picks, try_except.
  rewrite (bind_run _ _ σ σ v) by done.
  erewrite bind_run by apply save_picks_run. reflexivity.
Qed.

Lemma restore_picks_rejected (up : text) (σ : world) :
  json_ok up = false →
  restore_picks up σ
  = (Return (), World (files σ)
       (shown σ ++ [StError ("Kunde inte läsa JSON: " +:+ exn_str JSONDecodeError)])).
Proof.
  intros Hup. unfold restore_picks, try_except.
  rewrite (bind_run_raise _ _ σ σ JSONDecodeError) by by destruct up.
  reflexivity.
Qed.

Lemma restore_results_ok (tb : Table) (σ : world) :
  issubset required (columns tb) = true →
  restore_results (CsvText tb) σ
  = (Return (), World (<[RESULTS_CSV := to_csv (coerce_medals (str_columns tb))]>
                         (delete (tmp_of RESULTS_CSV) (files σ)))
                      (shown σ ++ [StSuccess "Återställde results.csv!"])).
Proof.
  intros Hc. unfold restore_results, try_except.
  rewrite (bind_run _ _ σ σ tb) by done. rewrite Hc. cbn [negb].
  erewrite bind_run by apply save_results_run. reflexivity.
Qed.

Lemma restore_results_missing_columns (tb : Table) (σ : world) :
  issubset required (columns tb) = false →
  restore_results (CsvText tb) σ
  = (Return (), World (files σ) (shown σ ++ [StError restore_columns_msg])).
Proof.
  intros Hc. unfold restore_results, try_except.
  rewrite (bind_run _ _ σ σ tb) by done. by rewrite Hc.
Qed.

Lemma restore_results_unparseable (up : text) (σ : world) :
  (∀ tb, up ≠ CsvText tb) →
  restore_results up σ
  = (Return (), World (files σ)
       (shown σ ++ [StError ("Kunde inte läsa CSV: " +:+ exn_str ParserError)])).
Proof.
  intros Hup. unfold restore_results, try_except.
  rewrite (bind_run_raise _ _ σ σ ParserError);
    [done | destruct up as [tb | |]; [by destruct (Hup tb) | done | done]].
Qed.

(** Loading what an import wrote is loading the payload itself. *)
Lemma load_after_restore_results (athletes : list Athlete) (tb : Table) (σ : world) :
  issubset required (columns tb) = true →
  (load_results athletes (restore_results (CsvText tb) σ).2).1
  = (load_results athletes (with_file RESULTS_CSV (CsvText tb) σ)).1.
Proof.
  intros Hc. rewrite restore_results_ok by done. cbn [snd].
  rewrite (load_results_present _ (with_file _ _ _) tb)
    by (done || apply lookup_insert_eq).
  erewrite load_results_present; [| apply lookup_insert_eq | reflexivity].
  cbn [fst]. by rewrite str_columns_to_csv, coerce_medals_idemp.
Qed.

(** C9. An import of picks succeeds exactly on a payload [json.loads]
    reads, the only check [load_picks] makes, and then the picks file holds
    the payload and nothing of its former content; an import of results
    succeeds exactly on a payload that parses and has both columns, the check
    [load_results] makes, and then the results file holds the payload's
    records with the medals coerced as a load coerces them, so that loading
    after the import is loading the payload.  On every other payload the
    import changes no file and shows an error that names the reason. *)
Theorem restore_validates_like_load (σ : world) :
  (∀ v, ∃ σ', restore_picks (JsonText v) σ = (Return (), σ') ∧
              files σ' !! PICKS_JSON = Some (JsonText v) ∧
              load_picks σ' = (Return v, σ')) ∧
  (∀ up, json_ok up = false →
     restore_picks up σ
     = (Return (), World (files σ)
          (shown σ ++ [StError ("Kunde inte läsa JSON: " +:+ exn_str JSONDecodeError)]))) ∧
  (∀ tb, issubset required (columns tb) = true →
     ∃ σ', restore_results (CsvText tb) σ = (Return (), σ') ∧
           files σ' !! RESULTS_CSV
             = Some (to_csv (coerce_medals (str_columns tb))) ∧
           ∀ athletes,
             (load_results athletes σ').1
             = (load_results athletes (with_file RESULTS_CSV (CsvText tb) σ)).1) ∧
  (∀ up, csv_ok up = false →
     ∃ reason, restore_results up σ
               = (Return (), World (files σ) (shown σ ++ [StError reason]))) ∧
  (∀ up athletes,
     csv_ok up = true ↔
     ∃ merged, (load_results athletes (with_file RESULTS_CSV up σ)).1 = Return merged).
Proof.
  split; [| split; [| split; [| split]]].
  - intros v. eexists. split; [apply restore_picks_ok |]. split.
    + cbn. apply lookup_insert_eq.
    + rewrite load_picks_run. cbn [files]. by rewrite lookup_insert_eq.
  - intros up. apply restore_picks_rejected.
  - intros tb Hc. eexists. split; [by apply restore_results_ok |]. split.
    + cbn. apply lookup_insert_eq.
    + intros athletes. rewrite <- load_after_restore_results by done.
      by rewrite restore_results_ok.
  - intros [tb | v | s] Hup; cbn in Hup.
    + eexists. by apply restore_results_missing_columns.
    + eexists. by apply restore_results_unparseable.
    + eexists. by apply restore_results_unparseable.
  - intros up athletes.
    assert (files (with_file RESULTS_CSV up σ) !! RESULTS_CSV = Some up) as Hf
      by apply lookup_insert_eq.
    destruct up as [tb | v | s]; cbn [csv_ok].
    + destruct (issubset required (columns tb)) eqn:Hc.
      * rewrite (load_results_present _ _ tb) by done. split; [eauto | done].
      * rewrite (load_results_missing_columns _ _ tb) by done.
        split; [done | by intros [? ?]].
    + rewrite (load_results_unparseable _ _ _ Hf) by done.
      split; [done | by intros [? ?]].
    + rewrite (load_results_unparseable _ _ _ Hf) by done.
      split; [done | by intros [? ?]].
Qed.

(** * Further properties *)

(** ** Scoring on arbitrary values *)

Lemma py_eq_str_true (v : pyval) (s : string) :
  py_eq_str v s = true ↔ v = PyStr s.
Proof.
  destruct v; cbn; try (split; [discriminate | discriminate]).
  rewrite bool_decide_eq_true. split; [by intros -> | by intros [= ->]].
Qed.

Lemma py_eq_str_false (v : pyval) (s : string) :
  py_eq_str v s = false ↔ v ≠ PyStr s.
Proof. rewrite <- py_eq_str_true. by destruct (py_eq_str v s). Qed.

(** X1. Whatever Python value stands as the pick (a string outside the
    enum, a number, null, a list), the score is 5 exactly when an outcome
    is entered and the pick is that string, 2 exactly when an outcome is
    entered and the pick is neither that string nor the string "None", and
    0 exactly when no outcome is entered or the pick is the string "None". *)
Theorem score_pick_any_value (pick : pyval) (actual : string) :
  (score_pick pick actual = 5%Z ↔ actual ≠ "None" ∧ pick = PyStr actual) ∧
  (score_pick pick actual = 2%Z ↔
     actual ≠ "None" ∧ pick ≠ PyStr actual ∧ pick ≠ PyStr "None") ∧
  (score_pick pick actual = 0%Z ↔ actual = "None" ∨ pick = PyStr "None").
Proof.
  pose proof (py_eq_str_true pick actual) as Ha.
  pose proof (py_eq_str_true pick "None") as Hn.
  unfold score_pick.
  destruct (py_eq_str pick actual), (py_eq_str pick "None");
    case_bool_decide as Hact; cbn;
    repeat split; try discriminate; try tauto; try (intros; exfalso; intuition congruence);
    intuition (try discriminate; try congruence).
Qed.

(** ** What the scoreboard's columns keep *)

Lemma tally_counters_ok (rm : gmap string string) (user_picks : pyval)
    (c c' : Counters) (aid : string) (n : Z) :
  counters_ok n c → tally rm user_picks c aid = Return c' →
  counters_ok (n + 1) c'.
Proof.
  unfold counters_ok, tally. intros Hc H.
  apply outcome_bind_inv in H as (pick & _ & H).
  set (actual := default "None" (rm !! aid)) in *.
  unfold score_pick in H.
  destruct (py_eq_str pick actual), (py_eq_str pick "None");
    case_bool_decide; cbn in H; injection H as <-; cbn; lia.
Qed.

Lemma for_each_counters_ok (rm : gmap string string) (user_picks : pyval)
    (ids : list string) (c c' : Counters) (n : Z) :
  counters_ok n c → for_each (tally rm user_picks) c ids = Return c' →
  counters_ok (n + Z.of_nat (length ids)) c'.
Proof.
  revert c n. induction ids as [| aid ids IH]; intros c n Hc H.
  - cbn in *. injection H as <-. by rewrite Z.add_0_r.
  - cbn [for_each] in H. apply outcome_bind_inv in H as (c1 & H1 & H).
    eapply tally_counters_ok in H1; [| done].
    eapply IH in H; [| done].
    cbn [length]. by replace (n + Z.of_nat (S (length ids)))%Z
      with (n + 1 + Z.of_nat (length ids))%Z by lia.
Qed.

Lemma mapM_Return_Forall {A B} (f : A → outcome B) (P : B → Prop)
    (l : list A) (ys : list B) :
  mapM f l = Return ys → (∀ x y, x ∈ l → f x = Return y → P y) → Forall P ys.
Proof.
  revert ys. induction l as [| x l IH]; intros ys H HP.
  - cbn in H. injection H as <-. constructor.
  - cbn [mapM] in H. apply outcome_bind_inv in H as (y & Hy & H).
    apply outcome_bind_inv in H as (ys' & Hys & H). injection H as <-.
    constructor; [by eapply HP; [left |] |].
    apply IH; [done |]. intros x' y' Hx'. apply HP. by right.
Qed.

(** X2. In every scoreboard the builder returns, whatever the picks
    document holds, each row's points are five times its exact count plus
    twice its right-medallist count, both counts are natural numbers, and
    together they do not exceed the number of registry athletes. *)
Theorem build_scoreboard_columns (athletes : list Athlete) (results : DataFrame)
    (picks_all : pyval) (sb : list Entry) :
  build_scoreboard athletes results picks_all = Return sb →
  Forall (entry_ok (Z.of_nat (length athletes))) sb.
Proof.
  unfold build_scoreboard. intros H.
  apply outcome_bind_inv in H as (rows & Hrows & H). injection H as <-.
  rewrite sort_values_Permutation.
  eapply mapM_Return_Forall; [exact Hrows |].
  intros p e _ He. unfold player_row in He.
  apply outcome_bind_inv in He as (up & _ & He).
  apply outcome_bind_inv in He as (c & Hc & He). injection He as <-.
  eapply (for_each_counters_ok _ _ _ _ _ 0) in Hc; [| unfold counters_ok; cbn; lia].
  unfold entry_ok, counters_ok in *. cbn. rewrite length_fmap in Hc. lia.
Qed.

Lemma build_scoreboard_columns_witness :
  build_scoreboard [A1] gold_results (py_of_picks picks_two) = Return board_two ∧
  Forall (entry_ok (Z.of_nat (length [A1]))) board_two.
Proof.
  assert (build_scoreboard [A1] gold_results (py_of_picks picks_two)
          = Return board_two) as H by (vm_compute; reflexivity).
  split; [exact H |].
  exact (build_scoreboard_columns [A1] gold_results _ board_two H).
Defined.

(** ** When the scoreboard raises *)

Lemma tally_dict (rm : gmap string string) (m : gmap string pyval)
    (c : Counters) (aid : string) :
  ∃ c', tally rm (PyDict m) c aid = Return c'.
Proof.
  unfold tally, py_get. rewrite outcome_bind_Return.
  repeat (case_match; eauto).
Qed.

Lemma for_each_tally_dict (rm : gmap string string) (m : gmap string pyval)
    (ids : list string) (c : Counters) :
  ∃ c', for_each (tally rm (PyDict m)) c ids = Return c'.
Proof.
  revert c. induction ids as [| aid ids IH]; intros c; [by eexists |].
  cbn [for_each]. destruct (tally_dict rm m c aid) as [c1 ->].
  rewrite outcome_bind_Return. apply IH.
Qed.

Lemma for_each_tally_no_dict (rm : gmap string string) (v : pyval)
    (ids : list string) (c : Counters) :
  (∀ m, v ≠ PyDict m) → ids ≠ [] →
  for_each (tally rm v) c ids = Raise AttributeError.
Proof.
  intros Hv Hids. destruct ids as [| aid ids]; [done |].
  cbn [for_each]. unfold tally, py_get.
  destruct v as [| | | | | m]; try reflexivity. by destruct (Hv m).
Qed.

(** One player's row on a dict of picks: it raises exactly when the
    registry is not empty and the player's entry is not a dict. *)
Lemma player_row_dict (rm : gmap string string) (ids : list string)
    (d : gmap string pyval) (p : string) :
  (ids = [] ∨ ∀ v, d !! p = Some v → ∃ up, v = PyDict up) →
  ∃ e, player_row rm ids (PyDict d) p = Return e.
Proof.
  intros H. unfold player_row, py_get. rewrite outcome_bind_Return.
  destruct H as [-> | H].
  - cbn. by eexists.
  - destruct (d !! p) as [v |] eqn:Hp; cbn.
    + destruct (H v eq_refl) as [up ->].
      destruct (for_each_tally_dict rm up ids (mkCounters 0 0 0)) as [c ->].
      by eexists.
    + destruct (for_each_tally_dict rm ∅ ids (mkCounters 0 0 0)) as [c ->].
      by eexists.
Qed.

Lemma player_row_no_dict (rm : gmap string string) (ids : list string)
    (d : gmap string pyval) (p : string) (v : pyval) :
  ids ≠ [] → d !! p = Some v → (∀ up, v ≠ PyDict up) →
  player_row rm ids (PyDict d) p = Raise AttributeError.
Proof.
  intros Hids Hp Hv. unfold player_row, py_get. rewrite outcome_bind_Return, Hp.
  cbn. by rewrite for_each_tally_no_dict.
Qed.

Lemma mapM_Return_all {A B} (f : A → outcome B) (l : list A) :
  (∀ x, x ∈ l → ∃ y, f x = Return y) → ∃ ys, mapM f l = Return ys.
Proof.
  induction l as [| x l IH]; intros H; [by eexists |].
  cbn [mapM]. destruct (H x) as [y ->]; [left |].
  destruct IH as [ys ->]; [intros x' Hx'; apply H; by right |].
  by eexists.
Qed.

Lemma mapM_Return_each {A B} (f : A → outcome B) (l : list A) (ys : list B) :
  mapM f l = Return ys → ∀ x, x ∈ l → ∃ y, f x = Return y.
Proof.
  revert ys. induction l as [| x l IH]; intros ys H x' Hx'.
  - by apply elem_of_nil in Hx'.
  - cbn [mapM] in H. apply outcome_bind_inv in H as (y & Hy & H).
    apply outcome_bind_inv in H as (ys' & Hys & _).
    apply elem_of_cons in Hx' as [-> | Hx']; [by eexists | by eapply IH].
Qed.

Lemma mapM_raises_only {A B} (f : A → outcome B) (e : exn) (l : list A) :
  (∀ x, x ∈ l → (∃ y, f x = Return y) ∨ f x = Raise e) →
  (∃ ys, mapM f l = Return ys) ∨ mapM f l = Raise e.
Proof.
  induction l as [| x l IH]; intros H; [left; by eexists |].
  cbn [mapM]. destruct (H x) as [[y ->] | ->]; [left | | by right].
  destruct IH as [[ys ->] | ->]; [intros x' Hx'; apply H; by right | |].
  - left. by eexists.
  - by right.
Qed.

Lemma is_dict_dec (v : pyval) : (∃ up, v = PyDict up) ∨ (∀ up, v ≠ PyDict up).
Proof. destruct v; eauto; right; intros up; discriminate. Qed.

(** X3. The builder returns a scoreboard exactly when the picks document
    is a dict and, unless the registry is empty, the entry of every roster
    player that has one is a dict; in every other case it raises
    AttributeError, and nothing else. *)
Theorem build_scoreboard_returns_iff (athletes : list Athlete)
    (results : DataFrame) (picks_all : pyval) :
  ((∃ sb, build_scoreboard athletes results picks_all = Return sb) ↔
   ∃ d, picks_all = PyDict d ∧
        (athletes = [] ∨
         ∀ p v, p ∈ PLAYERS → d !! p = Some v → ∃ up, v = PyDict up)) ∧
  ((∃ sb, build_scoreboard athletes results picks_all = Return sb) ∨
   build_scoreboard athletes results picks_all = Raise AttributeError).
Proof.
  set (rm := dict_zip results). set (ids := athlete_id <$> athletes).
  assert (ids = [] ↔ athletes = []) as Hnil
    by (unfold ids; split; [apply fmap_nil_inv | by intros ->]).
  assert (∀ rows : outcome (list Entry),
    (∃ sb, (rows ≫= λ rows, Return (sort_values rows)) = Return sb)
    ↔ ∃ rs, rows = Return rs) as Hsort.
  { intros [rs | e |]; cbn; split; intros [x Hx]; try discriminate; eauto. }
  unfold build_scoreboard. fold rm ids. split.
  - rewrite Hsort. split.
    + intros [rs Hrs].
      destruct picks_all as [| | | | | d]; try (cbn in Hrs; discriminate).
      exists d. split; [done |].
      destruct athletes as [| a athletes]; [by left | right].
      intros p v Hp Hv.
      destruct (is_dict_dec v) as [? | Hnd]; [done |].
      destruct (mapM_Return_each _ _ _ Hrs p Hp) as [e He].
      rewrite (player_row_no_dict rm ids d p v) in He; done.
    + intros (d & -> & H). apply mapM_Return_all. intros p Hp.
      apply player_row_dict. destruct H as [H | H]; [left; by apply Hnil |].
      right. intros v. by apply H.
  - destruct (mapM_raises_only (player_row rm ids picks_all) AttributeError PLAYERS)
      as [[rs ->] | ->]; [| left; by eexists | by right].
    intros p _. destruct picks_all as [| | | | | d]; try (by right).
    destruct (decide (ids = [])) as [Hi | Hi].
    { left. apply player_row_dict. by left. }
    destruct (d !! p) as [v |] eqn:Hp.
    + destruct (is_dict_dec v) as [[up ->] | Hnd].
      * left. apply player_row_dict. right. intros v. rewrite Hp.
        intros [= <-]. by eexists.
      * right. by eapply player_row_no_dict.
    + left. apply player_row_dict. right. intros v. by rewrite Hp.
Qed.

(** ** Boards of zeros *)

Lemma sort_values_zero_rows (l : list string) :
  sort_values (zero_row <$> l) = zero_row <$> l.
Proof.
  induction l as [| p l IH]; [done |].
  cbn [fmap list_fmap sort_values foldr]. fold (sort_values (zero_row <$> l)).
  rewrite IH. by destruct l.
Qed.

Lemma sum_Z_zero {A} (f : A → Z) (l : list A) :
  (∀ x, x ∈ l → f x = 0%Z) → sum_Z (f <$> l) = 0%Z.
Proof.
  induction l as [| x l IH]; intros H; [done |].
  cbn. rewrite H by left. rewrite Z.add_0_l. apply IH. intros y Hy. apply H. by right.
Qed.

Lemma filter_none {A} (P : A → Prop) `{!∀ x, Decision (P x)} (l : list A) :
  (∀ x, x ∈ l → ¬ P x) → filter P l = [].
Proof.
  induction l as [| x l IH]; intros HP; [done |].
  rewrite filter_cons, decide_False by (apply HP; left).
  apply IH. intros y Hy. apply HP. by right.
Qed.

Lemma score_pick_zero (pick : pyval) (actual : string) :
  actual = "None" ∨ pick = PyStr "None" → score_pick pick actual = 0%Z.
Proof.
  unfold score_pick. intros [-> | ->]; [done |].
  case_bool_decide as Ha; [done |]. cbn.
  rewrite bool_decide_eq_false_2 by congruence. by rewrite bool_decide_eq_true_2.
Qed.

(** X4. When no outcome is entered for any registry athlete, or when
    nobody has picked anything, every roster player has 0 points, 0 exact
    and 0 right medallists, and the scoreboard lists the players in the
    order of the roster. *)
Theorem build_scoreboard_all_zero (athletes : list Athlete) (results : DataFrame)
    (picks : gmap string (gmap string string)) :
  (∀ a, a ∈ athlete_id <$> athletes → actual_of results a = "None") ∨
  (∀ p a, pick_of picks p a = "None") →
  build_scoreboard athletes results (py_of_picks picks)
  = Return (zero_row <$> PLAYERS).
Proof.
  intros H. rewrite build_scoreboard_typed, <- sort_values_zero_rows.
  do 2 f_equal. apply list_fmap_ext. intros _ p _.
  unfold spec_entry, zero_row, total_points, exact_count, partial_count.
  f_equal.
  - apply sum_Z_zero. intros a Ha.
    apply score_pick_zero.
    destruct H as [H | H]; [left; by apply H | right; by rewrite H].
  - rewrite filter_none; [done |]. intros a Ha [Hact Hp].
    destruct H as [H | H]; [by apply Hact, H |].
    rewrite H in Hp. congruence.
  - rewrite filter_none; [done |]. intros a Ha (Hact & Hp & _).
    destruct H as [H | H]; [by apply Hact, H | by apply Hp, H].
Qed.

Lemma build_scoreboard_all_zero_witness :
  ((∀ a, a ∈ athlete_id <$> [A1] → actual_of [] a = "None") ∨
   (∀ p a, pick_of picks_gold p a = "None")) ∧
  build_scoreboard [A1] [] (py_of_picks picks_gold) = Return (zero_row <$> PLAYERS).
Proof.
  assert ((∀ a, a ∈ athlete_id <$> [A1] → actual_of [] a = "None") ∨
          (∀ p a, pick_of picks_gold p a = "None")) as H
    by (left; intros a _; reflexivity).
  split; [exact H |].
  exact (build_scoreboard_all_zero [A1] [] picks_gold H).
Defined.

(** ** Which outcome and which picks count *)

Lemma dict_zip_snoc (results : DataFrame) (r : string * string) :
  dict_zip (results ++ [r]) = <[r.1 := r.2]> (dict_zip results).
Proof. unfold dict_zip. by rewrite foldl_app. Qed.

Lemma stored_under_snoc (results : DataFrame) (r : string * string) (a : string) :
  stored_under (results ++ [r]) a
  = (stored_under results a ++ if decide (r.1 = a) then [r] else [])%list.
Proof.
  unfold stored_under. rewrite filter_app, filter_cons, filter_nil.
  by case_decide.
Qed.

Lemma dict_zip_last (results : DataFrame) (a : string) :
  dict_zip results !! a = snd <$> last (stored_under results a).
Proof.
  induction results as [| r results IH] using rev_ind; [done |].
  rewrite dict_zip_snoc, stored_under_snoc.
  case_decide as Ha.
  - rewrite Ha, lookup_insert_eq. by rewrite last_snoc.
  - rewrite lookup_insert_ne by done. by rewrite app_nil_r.
Qed.

(** X5. The outcome the scoreboard uses for an athlete is the medal of
    the last record the results frame holds under the athlete's id, and None
    when it holds no record; so of two records stored under one id the later
    one decides every player's points for that athlete. *)
Theorem actual_of_last_record (results : DataFrame) (a m1 m2 : string) :
  actual_of results a = default "None" (snd <$> last (stored_under results a)) ∧
  actual_of (results ++ [(a, m1); (a, m2)]) a = m2.
Proof.
  unfold actual_of. rewrite !dict_zip_last. split; [done |].
  unfold stored_under. rewrite filter_app, !filter_cons, !decide_True by done.
  rewrite filter_nil. by rewrite !last_app_cons.
Qed.

Lemma filter_ext_in {A} (P Q : A → Prop) `{!∀ x, Decision (P x)}
    `{!∀ x, Decision (Q x)} (l : list A) :
  (∀ x, x ∈ l → P x ↔ Q x) → filter P l = filter Q l.
Proof.
  induction l as [| x l IH]; intros HPQ; [done |].
  rewrite !filter_cons. rewrite IH by (intros y Hy; apply HPQ; by right).
  destruct (decide (P x)) as [HP | HP], (decide (Q x)) as [HQ | HQ];
    try done; exfalso; apply (HPQ x (list_elem_of_here _ _)) in HP || apply HP, (HPQ x (list_elem_of_here _ _)); done.
Qed.

Lemma actual_of_registry (ids : list string) (results : DataFrame) (a : string) :
  a ∈ ids → actual_of (filter (λ r, r.1 ∈ ids) results) a = actual_of results a.
Proof.
  intros Ha. unfold actual_of. rewrite !dict_zip_last. do 3 f_equal.
  unfold stored_under. rewrite list_filter_filter. apply list_filter_iff.
  intros r. split; [tauto |]. intros ->. done.
Qed.

Lemma pick_of_registry (ids : list string) (picks : gmap string (gmap string string))
    (p a : string) :
  a ∈ ids → pick_of (registry_only ids picks) p a = pick_of picks p a.
Proof.
  intros Ha. unfold pick_of, registry_only. rewrite lookup_fmap.
  destruct (picks !! p) as [up |]; cbn; [| done].
  rewrite map_lookup_filter. destruct (up !! a); cbn; [| done].
  by rewrite option_guard_True.
Qed.

(** The figures of a player depend on the outcomes and picks of the
    registry's athletes only. *)
Lemma spec_entry_ext (athletes : list Athlete) (results results' : DataFrame)
    (picks picks' : gmap string (gmap string string)) (p : string) :
  (∀ a, a ∈ athlete_id <$> athletes → actual_of results' a = actual_of results a) →
  (∀ a, a ∈ athlete_id <$> athletes → pick_of picks' p a = pick_of picks p a) →
  spec_entry athletes results' picks' p = spec_entry athletes results picks p.
Proof.
  intros Hact Hpick.
  unfold spec_entry, total_points, exact_count, partial_count. f_equal.
  - f_equal. apply list_fmap_ext. intros i a Ha%list_elem_of_lookup_2.
    by rewrite Hact, Hpick.
  - do 2 f_equal. apply filter_ext_in. intros a Ha. by rewrite Hact, Hpick.
  - do 2 f_equal. apply filter_ext_in. intros a Ha. by rewrite Hact, Hpick.
Qed.

(** X6. Records of the results frame and picks that are about athletes
    outside the registry change nothing: the scoreboard built after
    removing them is the scoreboard built with them. *)
Theorem build_scoreboard_registry_only (athletes : list Athlete)
    (results : DataFrame) (picks : gmap string (gmap string string)) :
  build_scoreboard athletes
    (filter (λ r, r.1 ∈ athlete_id <$> athletes) results)
    (py_of_picks (registry_only (athlete_id <$> athletes) picks))
  = build_scoreboard athletes results (py_of_picks picks).
Proof.
  rewrite !build_scoreboard_typed. do 2 f_equal.
  apply list_fmap_ext. intros _ p _. apply spec_entry_ext.
  - intros a Ha. by apply actual_of_registry.
  - intros a Ha. by apply pick_of_registry.
Qed.

Lemma sum_Z_Permutation (l l' : list Z) : l ≡ₚ l' → sum_Z l = sum_Z l'.
Proof. unfold sum_Z. induction 1; simpl in *; lia. Qed.

(** X7. The order of the roster does not matter to the scoreboard: two
    registries with the same athlete ids in another order give, on the same
    results and picks, the same scoreboard. *)
Theorem build_scoreboard_roster_order (athletes athletes' : list Athlete)
    (results : DataFrame) (picks : gmap string (gmap string string)) :
  athlete_id <$> athletes ≡ₚ athlete_id <$> athletes' →
  build_scoreboard athletes results (py_of_picks picks)
  = build_scoreboard athletes' results (py_of_picks picks).
Proof.
  intros Hp. rewrite !build_scoreboard_typed. do 2 f_equal.
  apply list_fmap_ext. intros _ p _.
  unfold spec_entry, total_points, exact_count, partial_count. f_equal.
  - apply sum_Z_Permutation. by rewrite Hp.
  - f_equal. apply Permutation_length. by rewrite Hp.
  - f_equal. apply Permutation_length. by rewrite Hp.
Qed.

Lemma build_scoreboard_roster_order_witness :
  athlete_id <$> [A1; mkAthlete "A2" "Bo" "Skidor"]
    ≡ₚ athlete_id <$> [mkAthlete "A2" "Bo" "Skidor"; A1] ∧
  build_scoreboard [A1; mkAthlete "A2" "Bo" "Skidor"] gold_results
    (py_of_picks picks_two)
  = build_scoreboard [mkAthlete "A2" "Bo" "Skidor"; A1] gold_results
      (py_of_picks picks_two).
Proof.
  assert (athlete_id <$> [A1; mkAthlete "A2" "Bo" "Skidor"]
          ≡ₚ athlete_id <$> [mkAthlete "A2" "Bo" "Skidor"; A1]) as H
    by apply Permutation_swap.
  split; [exact H |].
  exact (build_scoreboard_roster_order _ _ gold_results picks_two H).
Defined.

(** ** The two stores side by side *)

Lemma paths_distinct :
  NoDup [RESULTS_CSV; PICKS_JSON; tmp_of RESULTS_CSV; tmp_of PICKS_JSON; ATHLETES_CSV].
Proof. apply (bool_decide_unpack _). by vm_compute. Qed.

Lemma paths_ne (i j : nat) (p q : string) :
  [RESULTS_CSV; PICKS_JSON; tmp_of RESULTS_CSV; tmp_of PICKS_JSON; ATHLETES_CSV] !! i
    = Some p →
  [RESULTS_CSV; PICKS_JSON; tmp_of RESULTS_CSV; tmp_of PICKS_JSON; ATHLETES_CSV] !! j
    = Some q →
  i ≠ j → p ≠ q.
Proof.
  intros Hi Hj Hij ->. apply Hij.
  eapply NoDup_lookup; [apply paths_distinct | done | done].
Qed.

(** A write touches its target and the target's temporary file only. *)
Lemma atomic_write_text_other (path q : string) (t : text) (σ : world) :
  q ≠ path → q ≠ tmp_of path →
  files (atomic_write_text path t σ).2 !! q = files σ !! q.
Proof.
  intros H1 H2. rewrite atomic_write_text_run. cbn.
  by rewrite lookup_insert_ne, lookup_delete_ne.
Qed.

(** The outcome of a load of the results is decided by the results file. *)
Lemma load_results_outcome_ext (athletes : list Athlete) (σ σ' : world) :
  files σ !! RESULTS_CSV = files σ' !! RESULTS_CSV →
  (load_results athletes σ).1 = (load_results athletes σ').1.
Proof.
  intros H. destruct (files σ !! RESULTS_CSV) as [[tb | v | s] |] eqn:Hf;
    symmetry in H.
  - destruct (issubset required (columns tb)) eqn:Hc.
    + by rewrite !(load_results_present _ _ tb).
    + by rewrite !(load_results_missing_columns _ _ tb).
  - by rewrite !(load_results_unparseable _ _ (JsonText v)).
  - by rewrite !(load_results_unparseable _ _ (OtherText s)).
  - by rewrite !load_results_absent.
Qed.

(** The files a load of the results leaves: those it found, and the seed
    when it found no results file. *)
Lemma load_results_files (athletes : list Athlete) (σ : world) :
  files (load_results athletes σ).2
  = match files σ !! RESULTS_CSV with
    | Some _ => files σ
    | None => <[RESULTS_CSV := to_csv (seed athletes)]>
                (delete (tmp_of RESULTS_CSV) (files σ))
    end.
Proof.
  destruct (files σ !! RESULTS_CSV) as [[tb | v | s] |] eqn:Hf.
  - destruct (issubset required (columns tb)) eqn:Hc.
    + by rewrite (load_results_present _ _ tb).
    + by rewrite (load_results_missing_columns _ _ tb).
  - by rewrite (load_results_unparseable _ _ (JsonText v)).
  - by rewrite (load_results_unparseable _ _ (OtherText s)).
  - by rewrite load_results_absent.
Qed.

(** X8. The two stores do not touch each other: saving or loading the
    results leaves the picks file as it is, saving the picks leaves the
    results file as it is, so a load of one store gives the same after any
    save of the other; and no save leaves its temporary file behind. *)
Theorem stores_independent (athletes : list Athlete) (σ : world) :
  (∀ df, files (save_results df σ).2 !! PICKS_JSON = files σ !! PICKS_JSON ∧
         files (save_results df σ).2 !! tmp_of RESULTS_CSV = None ∧
         load_picks (save_results df σ).2
           = ((load_picks σ).1, (save_results df σ).2)) ∧
  (∀ v, files (save_picks v σ).2 !! RESULTS_CSV = files σ !! RESULTS_CSV ∧
        files (save_picks v σ).2 !! tmp_of PICKS_JSON = None ∧
        (load_results athletes (save_picks v σ).2).1
          = (load_results athletes σ).1) ∧
  files (load_results athletes σ).2 !! PICKS_JSON = files σ !! PICKS_JSON.
Proof.
  assert (PICKS_JSON ≠ RESULTS_CSV) as H1 by by apply (paths_ne 1 0).
  assert (PICKS_JSON ≠ tmp_of RESULTS_CSV) as H2 by by apply (paths_ne 1 2).
  assert (RESULTS_CSV ≠ tmp_of PICKS_JSON) as H3 by by apply (paths_ne 0 3).
  pose proof (tmp_of_ne RESULTS_CSV) as H4. pose proof (tmp_of_ne PICKS_JSON) as H5.
  split; [| split].
  - intros df.
    assert (files (save_results df σ).2 !! PICKS_JSON = files σ !! PICKS_JSON) as Hp
      by by apply atomic_write_text_other.
    split; [exact Hp |]. split.
    + rewrite save_results_run. cbn.
      by rewrite lookup_insert_ne, lookup_delete_eq.
    + by rewrite !load_picks_run, Hp.
  - intros v.
    assert (files (save_picks v σ).2 !! RESULTS_CSV = files σ !! RESULTS_CSV) as Hr
      by by apply atomic_write_text_other.
    split; [exact Hr |]. split.
    + rewrite save_picks_run. cbn.
      by rewrite lookup_insert_ne, lookup_delete_eq.
    + by apply load_results_outcome_ext.
  - rewrite load_results_files. destruct (files σ !! RESULTS_CSV); [done |].
    by rewrite lookup_insert_ne, lookup_delete_ne.
Qed.

(** X9. A save is a full overwrite: of two saves of one store in a row
    only the second shows, in the store's file and in every other file. *)
Theorem save_overwrites (σ : world) :
  (∀ X Y, (save_results X;; save_results Y) σ = save_results Y σ) ∧
  (∀ v w, (save_picks v;; save_picks w) σ = save_picks w σ).
Proof.
  assert (∀ path t u, (atomic_write_text path t;; atomic_write_text path u) σ
                      = atomic_write_text path u σ) as H.
  { intros path t u. erewrite bind_run by apply atomic_write_text_run.
    rewrite !atomic_write_text_run. cbn. do 2 f_equal.
    rewrite delete_insert_ne by apply tmp_of_ne.
    by rewrite insert_insert_eq, delete_delete_eq. }
  split; [intros X Y | intros v w]; apply H.
Qed.

(** X10. A load of the results never changes a results file that exists,
    whether the load returns or fails; and a second load in a row has the
    outcome of the first and changes no file. *)
Theorem load_results_settles (athletes : list Athlete) (σ : world) :
  (is_Some (files σ !! RESULTS_CSV) → files (load_results athletes σ).2 = files σ) ∧
  (load_results athletes (load_results athletes σ).2).1 = (load_results athletes σ).1 ∧
  files (load_results athletes (load_results athletes σ).2).2
    = files (load_results athletes σ).2.
Proof.
  split; [| split].
  - intros [t Ht]. by rewrite load_results_files, Ht.
  - destruct (files σ !! RESULTS_CSV) as [t |] eqn:Hf.
    + apply load_results_outcome_ext. by rewrite load_results_files, Hf.
    + rewrite (load_results_absent _ σ) by done. cbn [snd fst].
      erewrite load_results_present; [| apply lookup_insert_eq | reflexivity].
      by rewrite str_columns_to_csv.
  - rewrite (load_results_files _ (load_results athletes σ).2).
    rewrite load_results_files.
    destruct (files σ !! RESULTS_CSV) as [t |] eqn:Hf; [by rewrite Hf |].
    by rewrite lookup_insert_eq.
Qed.

(** ** The ids of a loaded frame *)

(** X11. Whatever the results file holds, duplicates included, a loaded
    frame mentions exactly the ids of the registry (each at least once, no
    other id), so it is never shorter than the registry. *)
Theorem load_results_ids (athletes : list Athlete) (σ σ' : world)
    (merged : DataFrame) :
  load_results athletes σ = (Return merged, σ') →
  (∀ a, a ∈ merged.*1 ↔ a ∈ athlete_id <$> athletes) ∧
  (length athletes ≤ length merged)%nat.
Proof.
  intros Hl.
  assert (∃ df, merged = fillna (merge_left (athlete_id <$> athletes) df)) as [df ->].
  { destruct (files σ !! RESULTS_CSV) as [[tb | v | s] |] eqn:Hf.
    - destruct (issubset required (columns tb)) eqn:Hc.
      + rewrite (load_results_present _ _ tb) in Hl by done. injection Hl as <- _.
        by eexists.
      + by rewrite (load_results_missing_columns _ _ tb) in Hl.
    - by rewrite (load_results_unparseable _ _ (JsonText v)) in Hl.
    - by rewrite (load_results_unparseable _ _ (OtherText s)) in Hl.
    - rewrite load_results_absent in Hl by done. injection Hl as <- _.
      by eexists. }
  destruct (merge_left_ids (athlete_id <$> athletes) df) as [H1 H2].
  split; [exact H1 |]. by rewrite length_fmap in H2.
Qed.

Lemma load_results_ids_witness :
  load_results [A1] dup_world
    = (Return [("A1", "Gold"); ("A1", "Silver")], dup_world) ∧
  (∀ a, a ∈ [("A1", "Gold"); ("A1", "Silver")].*1 ↔ a ∈ athlete_id <$> [A1]) ∧
  (length [A1] ≤ length [("A1", "Gold"); ("A1", "Silver")])%nat.
Proof.
  assert (load_results [A1] dup_world
          = (Return [("A1", "Gold"); ("A1", "Silver")], dup_world)) as H
    by (vm_compute; reflexivity).
  split; [exact H |].
  exact (load_results_ids [A1] dup_world dup_world _ H).
Defined.

(** ** Backup, then restore *)

Lemma export_picks_run (σ : world) :
  export_picks σ
  = (Return (default (JsonText (PyDict ∅)) (files σ !! PICKS_JSON)), σ).
Proof.
  unfold export_picks. destruct (files σ !! PICKS_JSON) as [t |] eqn:Hf.
  - rewrite (bind_run _ _ σ σ true) by by eapply path_exists_Some.
    by apply read_text_Some.
  - by rewrite (bind_run _ _ σ σ false) by by apply path_exists_None.
Qed.

Lemma export_results_run (σ : world) :
  export_results σ
  = (Return (default (to_csv []) (files σ !! RESULTS_CSV)), σ).
Proof.
  unfold export_results. destruct (files σ !! RESULTS_CSV) as [t |] eqn:Hf.
  - rewrite (bind_run _ _ σ σ true) by by eapply path_exists_Some.
    by apply read_text_Some.
  - by rewrite (bind_run _ _ σ σ false) by by apply path_exists_None.
Qed.

(** X12. Downloading the picks and uploading the download again, in any
    state of the picks file (missing, unreadable, or a document), leaves
    what a load of the picks returns as it was, and leaves the results file
    alone; the download itself never fails and changes nothing. *)
Theorem export_import_picks (σ : world) :
  ∃ up, export_picks σ = (Return up, σ) ∧
        (load_picks (restore_picks up σ).2).1 = (load_picks σ).1 ∧
        files (restore_picks up σ).2 !! RESULTS_CSV = files σ !! RESULTS_CSV.
Proof.
  eexists. split; [apply export_picks_run |].
  assert (RESULTS_CSV ≠ PICKS_JSON) as H1 by by apply (paths_ne 0 1).
  assert (RESULTS_CSV ≠ tmp_of PICKS_JSON) as H2 by by apply (paths_ne 0 3).
  rewrite !load_picks_run. cbn [fst].
  destruct (files σ !! PICKS_JSON) as [[tb | v | s] |] eqn:Hf; cbn [from_option id].
  - rewrite restore_picks_rejected by done. cbn. by rewrite Hf.
  - rewrite restore_picks_ok. cbn.
    by rewrite lookup_insert_eq, lookup_insert_ne, lookup_delete_ne.
  - rewrite restore_picks_rejected by done. cbn. by rewrite Hf.
  - rewrite restore_picks_ok. cbn.
    by rewrite lookup_insert_eq, lookup_insert_ne, lookup_delete_ne.
Qed.

Lemma merge_left_nothing_stored (ids : list string) :
  fillna (merge_left ids []) = (λ a, (a, "None")) <$> ids.
Proof. by rewrite merge_left_at_most_once by by apply Forall_true; cbn; lia. Qed.

(** X13. The download of the results never fails and changes nothing.
    When a results file exists (a table, a table without the required
    columns, or unreadable), uploading the download again leaves the outcome
    of a load of the results as it was; an unreadable or incomplete file is
    refused by the upload and fails the load as before.  When no results
    file exists, the download is the empty table with the two columns, the
    upload of it is accepted, and the load after it returns one all-None
    entry per athlete of the registry, in registry order. *)
Theorem export_import_results (athletes : list Athlete) (σ : world) :
  ∃ up, export_results σ = (Return up, σ) ∧
        (is_Some (files σ !! RESULTS_CSV) →
         (load_results athletes (restore_results up σ).2).1
         = (load_results athletes σ).1) ∧
        (files σ !! RESULTS_CSV = None →
         up = to_csv [] ∧
         load_results athletes (restore_results up σ).2
         = (Return (seed athletes), (restore_results up σ).2)).
Proof.
  eexists. split; [apply export_results_run |].
  destruct (files σ !! RESULTS_CSV) as [[tb | v | s] |] eqn:Hf; cbn [from_option id].
  - split; [intros _ | done].
    destruct (issubset required (columns tb)) eqn:Hc.
    + rewrite load_after_restore_results by done.
      apply load_results_outcome_ext. cbn. by rewrite lookup_insert_eq.
    + rewrite restore_results_missing_columns by done.
      by apply load_results_outcome_ext.
  - split; [intros _ | done].
    rewrite restore_results_unparseable by done. by apply load_results_outcome_ext.
  - split; [intros _ | done].
    rewrite restore_results_unparseable by done. by apply load_results_outcome_ext.
  - split; [by intros [? ?] |]. intros _. split; [done |].
    change (to_csv []) with (CsvText (mkTable ["athlete_id"; "medal"] [])).
    rewrite restore_results_ok by done. cbn [snd].
    erewrite load_results_present; [| apply lookup_insert_eq | reflexivity].
    cbn [str_columns rows fmap list_fmap coerce_medals].
    rewrite merge_left_nothing_stored. unfold seed.
    by rewrite <- list_fmap_compose.
Qed.

(** ** The form of the tab "Lägg tips" *)

Lemma existing_pick_dict (d up : gmap string pyval) (player athlete_id : string) :
  default (PyDict ∅) (d !! player) = PyDict up →
  existing_pick (PyDict d) player athlete_id
  = Return (default (PyStr "None") (up !! athlete_id)).
Proof. intros H. unfold existing_pick, py_get. rewrite outcome_bind_Return. by rewrite H. Qed.

(** The form raises where line 149 raises, and nowhere else. *)
Lemma tips_form_raises (picks_all : pyval) (player athlete_id medal : string)
    (c : click) (σ : world) :
  existing_pick picks_all player athlete_id = Raise AttributeError →
  tips_form picks_all player athlete_id medal c σ = (Raise AttributeError, σ).
Proof.
  unfold existing_pick, py_get, tips_form.
  destruct picks_all as [| | | | | d]; try done.
  rewrite outcome_bind_Return. by destruct (default (PyDict ∅) (d !! player)).
Qed.

(** X14. An upload of picks that is JSON but not an object is taken as
    it is: the import succeeds and the next load returns the value.  On such
    a value the scoreboard raises AttributeError and so does the form of the
    tab "Lägg tips", before it writes anything. *)
Theorem non_dict_picks_break_pages (v : pyval) (σ : world)
    (athletes : list Athlete) (results : DataFrame)
    (player athlete_id medal : string) (c : click) :
  (∀ d, v ≠ PyDict d) →
  (∃ σ', restore_picks (JsonText v) σ = (Return (), σ') ∧
         load_picks σ' = (Return v, σ')) ∧
  build_scoreboard athletes results v = Raise AttributeError ∧
  ∀ σ', tips_form v player athlete_id medal c σ' = (Raise AttributeError, σ').
Proof.
  intros Hv. split; [| split].
  - eexists. split; [apply restore_picks_ok |].
    rewrite load_picks_run. cbn [files]. by rewrite lookup_insert_eq.
  - destruct v as [| | | | | d]; try reflexivity. by destruct (Hv d).
  - intros σ'. destruct v as [| | | | | d]; try reflexivity. by destruct (Hv d).
Qed.

Lemma non_dict_picks_break_pages_witness :
  (∀ d, PyList [] ≠ PyDict d) ∧
  build_scoreboard [A1] gold_results (PyList []) = Raise AttributeError.
Proof.
  assert (∀ d, PyList [] ≠ PyDict d) as H by (intros d; discriminate).
  split; [exact H |].
  exact (proj1 (proj2 (non_dict_picks_break_pages (PyList []) empty_world
                         [A1] gold_results "Johan" "A1" "Gold" NoClick H))).
Defined.

(** X15. The option a medal select box starts on is always one of the
    four, and it is the stored value when that is a medal of the enum and
    None for every other value, a string outside the enum or not a string. *)
Theorem medal_index_coerces (v : pyval) :
  (medal_index v < length MEDALS)%nat ∧
  MEDALS !! medal_index v
  = Some (match v with PyStr s => coerce_medal s | _ => "None" end).
Proof.
  destruct v as [| b | lit | s | l | d]; try (split; [cbn; lia | reflexivity]).
  destruct (decide (s ∈ MEDALS)) as [Hin | Hout].
  - rewrite coerce_medal_id by done. unfold MEDALS in Hin.
    repeat (apply elem_of_cons in Hin as [-> | Hin];
            [split; [vm_compute; lia | vm_compute; reflexivity] |]).
    by apply elem_of_nil in Hin.
  - unfold coerce_medal. rewrite (bool_decide_eq_false_2 (s ∈ MEDALS)) by done.
    unfold medal_index, MEDALS in *. cbn.
    rewrite !bool_decide_eq_false_2
      by (intros ->; apply Hout; rewrite !elem_of_cons; tauto).
    split; [cbn; lia | reflexivity].
Qed.

Lemma tips_form_save_run (d up : gmap string pyval)
    (player athlete_id medal : string) (σ : world) :
  default (PyDict ∅) (d !! player) = PyDict up →
  tips_form (PyDict d) player athlete_id medal ClickSave σ
  = (Return (PyDict (<[player := PyDict (<[athlete_id := PyStr medal]> up)]> d)),
     World (<[PICKS_JSON :=
               JsonText (PyDict (<[player := PyDict (<[athlete_id := PyStr medal]> up)]> d))]>
              (delete (tmp_of PICKS_JSON) (files σ)))
           (shown σ ++ [StSuccess "Sparat!"])).
Proof.
  intros Hup. unfold tips_form. rewrite Hup.
  erewrite bind_run by apply save_picks_run. reflexivity.
Qed.

Lemma tips_form_remove_run (d up : gmap string pyval)
    (player athlete_id medal : string) (σ : world) :
  default (PyDict ∅) (d !! player) = PyDict up →
  is_Some (up !! athlete_id) →
  tips_form (PyDict d) player athlete_id medal ClickRemove σ
  = (Return (PyDict (<[player := PyDict (delete athlete_id up)]> d)),
     World (<[PICKS_JSON :=
               JsonText (PyDict (<[player := PyDict (delete athlete_id up)]> d))]>
              (delete (tmp_of PICKS_JSON) (files σ)))
           (shown σ ++ [StSuccess "Borttaget!"])).
Proof.
  intros Hup Ha. unfold tips_form. rewrite Hup.
  rewrite bool_decide_eq_true_2.
  - erewrite bind_run by apply save_picks_run. reflexivity.
  - split; [| done]. destruct (d !! player); [done |].
    cbn in Hup. injection Hup as <-. rewrite lookup_empty in Ha. by destruct Ha.
Qed.

Lemma tips_form_remove_nothing (d up : gmap string pyval)
    (player athlete_id medal : string) (σ : world) :
  default (PyDict ∅) (d !! player) = PyDict up →
  up !! athlete_id = None →
  tips_form (PyDict d) player athlete_id medal ClickRemove σ = (Return (PyDict d), σ).
Proof.
  intros Hup Ha. unfold tips_form. rewrite Hup.
  rewrite bool_decide_eq_false_2; [done |].
  rewrite Ha. intros [_ [? ?]]. done.
Qed.

(** The picks of everyone else, and the player's other picks, after the
    player's entry is replaced. *)
Lemma existing_pick_other (d up up' : gmap string pyval)
    (player athlete_id p a : string) :
  default (PyDict ∅) (d !! player) = PyDict up →
  (∀ a', a' ≠ athlete_id → up' !! a' = up !! a') →
  (p, a) ≠ (player, athlete_id) →
  existing_pick (PyDict (<[player := PyDict up']> d)) p a
  = existing_pick (PyDict d) p a.
Proof.
  intros Hup Hup' Hne. unfold existing_pick, py_get at 2 4.
  rewrite !outcome_bind_Return.
  destruct (decide (p = player)) as [-> | Hp].
  - rewrite lookup_insert_eq, Hup. cbn.
    rewrite Hup'; [done |]. intros ->. by apply Hne.
  - by rewrite lookup_insert_ne.
Qed.

(** X16. Saving a tip, on a picks dict in which the player's entry, if
    any, is a dict: the form returns, the picks file holds the whole new
    dict, which a load returns; the player's pick for the athlete is now the
    chosen medal, every other pick of every player is as before, and the
    results file is not touched. *)
Theorem tips_form_save (d : gmap string pyval) (player athlete_id medal : string)
    (σ : world) :
  (∀ v, d !! player = Some v → ∃ up, v = PyDict up) →
  ∃ picks' σ',
    tips_form (PyDict d) player athlete_id medal ClickSave σ = (Return picks', σ') ∧
    load_picks σ' = (Return picks', σ') ∧
    files σ' !! RESULTS_CSV = files σ !! RESULTS_CSV ∧
    existing_pick picks' player athlete_id = Return (PyStr medal) ∧
    ∀ p a, (p, a) ≠ (player, athlete_id) →
      existing_pick picks' p a = existing_pick (PyDict d) p a.
Proof.
  intros Hshape.
  assert (∃ up, default (PyDict ∅) (d !! player) = PyDict up) as [up Hup].
  { destruct (d !! player) as [v |]; [| by eexists].
    destruct (Hshape v eq_refl) as [up ->]. by eexists. }
  eexists _, _. split; [by apply tips_form_save_run |].
  split; [| split; [| split]].
  - rewrite load_picks_run. cbn [files]. by rewrite lookup_insert_eq.
  - cbn. rewrite lookup_insert_ne by by apply (paths_ne 1 0).
    by rewrite lookup_delete_ne by by apply (paths_ne 3 0).
  - erewrite existing_pick_dict by by rewrite lookup_insert_eq.
    by rewrite lookup_insert_eq.
  - intros p a Hne. eapply existing_pick_other; [done | | done].
    intros a' Ha'. by rewrite lookup_insert_ne.
Qed.

Lemma tips_form_save_witness :
  (∀ v, (∅ : gmap string pyval) !! "Johan" = Some v → ∃ up, v = PyDict up) ∧
  ∃ picks' σ',
    tips_form (PyDict ∅) "Johan" "A1" "Gold" ClickSave empty_world
      = (Return picks', σ') ∧
    existing_pick picks' "Johan" "A1" = Return (PyStr "Gold").
Proof.
  assert (∀ v, (∅ : gmap string pyval) !! "Johan" = Some v → ∃ up, v = PyDict up)
    as H by (intros v Hv; by rewrite lookup_empty in Hv).
  split; [exact H |].
  destruct (tips_form_save ∅ "Johan" "A1" "Gold" empty_world H)
    as (picks' & σ' & Hrun & _ & _ & Hget & _).
  by exists picks', σ'.
Defined.

(** X17. Removing a tip, on a picks dict in which the player's entry, if
    any, is a dict.  When the player has a pick for the athlete, it is
    deleted, the picks file holds the whole new dict, the pick reads as None
    and every other pick is as before.  When the player has none, nothing
    happens at all: no file is written and no notice is shown. *)
Theorem tips_form_remove (d up : gmap string pyval)
    (player athlete_id medal : string) (σ : world) :
  default (PyDict ∅) (d !! player) = PyDict up →
  (is_Some (up !! athlete_id) →
   ∃ picks' σ',
     tips_form (PyDict d) player athlete_id medal ClickRemove σ
       = (Return picks', σ') ∧
     load_picks σ' = (Return picks', σ') ∧
     existing_pick picks' player athlete_id = Return (PyStr "None") ∧
     ∀ p a, (p, a) ≠ (player, athlete_id) →
       existing_pick picks' p a = existing_pick (PyDict d) p a) ∧
  (up !! athlete_id = None →
   tips_form (PyDict d) player athlete_id medal ClickRemove σ
     = (Return (PyDict d), σ)).
Proof.
  intros Hup. split; [| by apply tips_form_remove_nothing].
  intros Ha. eexists _, _. split; [by apply tips_form_remove_run |].
  split; [| split].
  - rewrite load_picks_run. cbn [files]. by rewrite lookup_insert_eq.
  - erewrite existing_pick_dict by by rewrite lookup_insert_eq.
    by rewrite lookup_delete_eq.
  - intros p a Hne. eapply existing_pick_other; [done | | done].
    intros a' Ha'. by rewrite lookup_delete_ne.
Qed.

Lemma tips_form_remove_witness :
  default (PyDict ∅) (({[ "Johan" := PyDict {[ "A1" := PyStr "Gold" ]} ]}
                        : gmap string pyval) !! "Johan")
    = PyDict {[ "A1" := PyStr "Gold" ]} ∧
  ∃ picks' σ',
    tips_form (PyDict {[ "Johan" := PyDict {[ "A1" := PyStr "Gold" ]} ]})
      "Johan" "A1" "None" ClickRemove empty_world = (Return picks', σ') ∧
    existing_pick picks' "Johan" "A1" = Return (PyStr "None").
Proof.
  assert (default (PyDict ∅) (({[ "Johan" := PyDict {[ "A1" := PyStr "Gold" ]} ]}
                        : gmap string pyval) !! "Johan")
          = PyDict {[ "A1" := PyStr "Gold" ]}) as H by reflexivity.
  split; [exact H |].
  destruct (tips_form_remove _ _ "Johan" "A1" "None" empty_world H) as [Hr _].
  destruct (Hr (ltac:(by eexists))) as (picks' & σ' & Hrun & _ & Hget & _).
  by exists picks', σ'.
Defined.

Lemma py_of_picks_entry (picks : gmap string (gmap string string)) (p : string) :
  default (PyDict ∅) (((λ up, PyDict (PyStr <$> up)) <$> picks) !! p)
  = PyDict (PyStr <$> default ∅ (picks !! p)).
Proof.
  rewrite lookup_fmap. destruct (picks !! p); cbn; [done |]. by rewrite fmap_empty.
Qed.

Lemma pick_of_insert (picks : gmap string (gmap string string))
    (up : gmap string string) (p p' a' : string) :
  pick_of (<[p := up]> picks) p' a'
  = if decide (p' = p) then default "None" (up !! a') else pick_of picks p' a'.
Proof.
  unfold pick_of. case_decide as Hp.
  - subst. by rewrite lookup_insert_eq.
  - by rewrite lookup_insert_ne.
Qed.

(** X18. On a picks structure (player → athlete id → medal) the form
    keeps the structure typed.  Saving returns the structure in which the
    player's pick for the athlete is the chosen medal; removing returns the
    structure in which it reads as None; in both, every other pick of every
    player reads as before. *)
Theorem tips_form_typed (picks : gmap string (gmap string string))
    (player athlete_id medal : string) (σ : world) :
  (∃ picks',
     (tips_form (py_of_picks picks) player athlete_id medal ClickSave σ).1
       = Return (py_of_picks picks') ∧
     ∀ p a, pick_of picks' p a
            = if decide ((p, a) = (player, athlete_id)) then medal
              else pick_of picks p a) ∧
  (∃ picks',
     (tips_form (py_of_picks picks) player athlete_id medal ClickRemove σ).1
       = Return (py_of_picks picks') ∧
     ∀ p a, pick_of picks' p a
            = if decide ((p, a) = (player, athlete_id)) then "None"
              else pick_of picks p a).
Proof.
  set (up := default ∅ (picks !! player)).
  pose proof (py_of_picks_entry picks player) as Hup. fold up in Hup.
  assert (∀ a, default "None" (up !! a) = pick_of picks player a) as Hpick.
  { intros a. unfold up, pick_of. destruct (picks !! player); cbn; [done |].
    by rewrite lookup_empty. }
  split.
  - exists (<[player := <[athlete_id := medal]> up]> picks). split.
    + unfold py_of_picks at 1. erewrite tips_form_save_run by exact Hup.
      cbn [fst]. unfold py_of_picks. by rewrite !fmap_insert.
    + intros p a. rewrite pick_of_insert.
      destruct (decide (p = player)) as [-> | Hp].
      * destruct (decide (a = athlete_id)) as [-> | Ha].
        -- rewrite lookup_insert_eq. by rewrite decide_True.
        -- rewrite lookup_insert_ne by done. rewrite decide_False by congruence.
           apply Hpick.
      * by rewrite decide_False by congruence.
  - destruct (up !! athlete_id) as [m |] eqn:Ha.
    + exists (<[player := delete athlete_id up]> picks). split.
      * unfold py_of_picks at 1. erewrite tips_form_remove_run; [| exact Hup |].
        -- cbn [fst]. unfold py_of_picks. by rewrite fmap_insert, fmap_delete.
        -- rewrite lookup_fmap, Ha. by eexists.
      * intros p a. rewrite pick_of_insert.
        destruct (decide (p = player)) as [-> | Hp].
        -- destruct (decide (a = athlete_id)) as [-> | Hne].
           ++ rewrite lookup_delete_eq. by rewrite decide_True.
           ++ rewrite lookup_delete_ne by done. rewrite decide_False by congruence.
              apply Hpick.
        -- by rewrite decide_False by congruence.
    + exists picks. split.
      * unfold py_of_picks at 1. erewrite tips_form_remove_nothing; [done | exact Hup |].
        by rewrite lookup_fmap, Ha.
      * intros p a. case_decide as Hpa; [| done].
        injection Hpa as -> ->. by rewrite <- Hpick, Ha.
Qed.

(** ** The roster and the start of a run *)

(** What [load_athletes] does in each state of the roster file. *)
Lemma load_athletes_run (σ : world) :
  load_athletes σ
  = match files σ !! ATHLETES_CSV with
    | None => (Stopped, World (files σ) (shown σ ++ [StError athletes_missing_msg]))
    | Some (CsvText tb) =>
        if issubset athletes_required (columns tb)
        then (Return (athlete_of_row <$> dropna athletes_required (rows tb)), σ)
        else (Stopped, World (files σ) (shown σ ++ [StError athletes_columns_msg]))
    | Some _ => (Raise ParserError, σ)
    end.
Proof.
  unfold load_athletes. destruct (files σ !! ATHLETES_CSV) as [t |] eqn:Hf.
  - rewrite (bind_run _ _ σ σ true) by by eapply path_exists_Some.
    rewrite (bind_run _ _ σ σ ()) by done.
    destruct t as [tb | v | s].
    + rewrite (bind_run _ _ σ σ tb) by by apply read_csv_table.
      destruct (issubset athletes_required (columns tb)).
      * by rewrite (bind_run _ _ σ σ ()).
      * by erewrite bind_run_stopped.
    + by rewrite (bind_run_raise _ _ σ σ ParserError) by by eapply read_csv_other.
    + by rewrite (bind_run_raise _ _ σ σ ParserError) by by eapply read_csv_other.
  - rewrite (bind_run _ _ σ σ false) by by apply path_exists_None.
    by erewrite bind_run_stopped.
Qed.

(** X19. The roster loader only reads.  It returns exactly when the
    roster file is a table with the columns athlete_id, name and sport, and
    then returns at most as many athletes as the table has records.  When
    the file is missing or lacks a column, the run stops with the error
    shown, and the start of the run stops with it: no results file is
    seeded and no file is changed. *)
Theorem load_athletes_outcomes (σ : world) :
  files (load_athletes σ).2 = files σ ∧
  ((∃ athletes, (load_athletes σ).1 = Return athletes) ↔
   ∃ tb, files σ !! ATHLETES_CSV = Some (CsvText tb) ∧
         issubset athletes_required (columns tb) = true) ∧
  (∀ tb athletes, files σ !! ATHLETES_CSV = Some (CsvText tb) →
     (load_athletes σ).1 = Return athletes →
     (length athletes ≤ length (rows tb))%nat) ∧
  (files σ !! ATHLETES_CSV = None →
     session_start σ
     = (Stopped, World (files σ) (shown σ ++ [StError athletes_missing_msg]))) ∧
  (∀ tb, files σ !! ATHLETES_CSV = Some (CsvText tb) →
     issubset athletes_required (columns tb) = false →
     session_start σ
     = (Stopped, World (files σ) (shown σ ++ [StError athletes_columns_msg]))).
Proof.
  pose proof (load_athletes_run σ) as Hrun.
  split; [| split; [| split; [| split]]].
  - rewrite Hrun. destruct (files σ !! ATHLETES_CSV) as [[tb | v | s] |]; try done.
    by destruct (issubset athletes_required (columns tb)).
  - rewrite Hrun. destruct (files σ !! ATHLETES_CSV) as [[tb | v | s] |].
    + destruct (issubset athletes_required (columns tb)) eqn:Hc; cbn [fst].
      * split; [by exists tb | by eexists].
      * split; [by intros [? ?] |]. intros (tb' & [= <-] & ?). congruence.
    + split; [by intros [? ?] | by intros (? & ? & _)].
    + split; [by intros [? ?] | by intros (? & ? & _)].
    + split; [by intros [? ?] | by intros (? & ? & _)].
  - intros tb athletes Hf. rewrite Hrun, Hf.
    destruct (issubset athletes_required (columns tb)); [| done].
    cbn. intros [= <-].
    rewrite length_fmap. unfold dropna. apply length_filter.
  - intros Hf. unfold session_start.
    erewrite bind_run_stopped; [done |]. by rewrite Hrun, Hf.
  - intros tb Hf Hc. unfold session_start.
    erewrite bind_run_stopped; [done |]. by rewrite Hrun, Hf, Hc.
Qed.

Lemma build_scoreboard_no_picks (athletes : list Athlete) (results : DataFrame) :
  build_scoreboard athletes results (PyDict ∅) = Return (zero_row <$> PLAYERS).
Proof.
  replace (PyDict ∅) with (py_of_picks ∅)
    by (unfold py_of_picks; by rewrite fmap_empty).
  rewrite build_scoreboard_typed, <- sort_values_zero_rows.
  do 2 f_equal. apply list_fmap_ext. intros _ p _.
  unfold spec_entry, zero_row, total_points, exact_count, partial_count.
  assert (∀ a, pick_of ∅ p a = "None") as Hp
    by (intros a; unfold pick_of; by rewrite lookup_empty).
  f_equal.
  - apply sum_Z_zero. intros a _. apply score_pick_zero. right. by rewrite Hp.
  - rewrite filter_none; [done |]. intros a _ [Hact Hpa]. rewrite Hp in Hpa. congruence.
  - rewrite filter_none; [done |]. intros a _ (_ & Hpa & _). by apply Hpa.
Qed.

(** X20. The first run.  With a roster file that has the three columns
    and neither store on disk, the start of the run returns the roster, a
    results frame that mentions the ids of the roster and no other and in
    which every medal is None, and empty picks; the scoreboard built from
    them has all six players at 0/0/0 in roster order; afterwards the
    results file holds the seed, one all-None record per athlete of the
    roster, there is still no picks file, and the roster file is as it
    was. *)
Theorem first_run (σ : world) (tb : Table) :
  files σ !! ATHLETES_CSV = Some (CsvText tb) →
  issubset athletes_required (columns tb) = true →
  files σ !! RESULTS_CSV = None →
  files σ !! PICKS_JSON = None →
  ∃ athletes results σ',
    (load_athletes σ).1 = Return athletes ∧
    session_start σ = (Return (athletes, results, PyDict ∅), σ') ∧
    (∀ a, a ∈ results.*1 ↔ a ∈ athlete_id <$> athletes) ∧
    Forall (λ r, r.2 = "None") results ∧
    build_scoreboard athletes results (PyDict ∅)
      = Return (zero_row <$> PLAYERS) ∧
    files σ' !! RESULTS_CSV = Some (to_csv (seed athletes)) ∧
    length (seed athletes) = length athletes ∧
    files σ' !! PICKS_JSON = None ∧
    files σ' !! ATHLETES_CSV = Some (CsvText tb).
Proof.
  intros Hf Hc Hr Hp.
  set (athletes := athlete_of_row <$> dropna athletes_required (rows tb)).
  set (results := fillna (merge_left (athlete_id <$> athletes)
                            (coerce_medals (seed athletes)))).
  set (σ' := World (<[RESULTS_CSV := to_csv (seed athletes)]>
                      (delete (tmp_of RESULTS_CSV) (files σ))) (shown σ)).
  assert (files σ' !! PICKS_JSON = None) as Hp'.
  { cbn. rewrite lookup_insert_ne by by apply (paths_ne 0 1).
    by rewrite lookup_delete_ne by by apply (paths_ne 2 1). }
  assert (load_athletes σ = (Return athletes, σ)) as Ha
    by by rewrite load_athletes_run, Hf, Hc.
  assert (session_start σ = (Return (athletes, results, PyDict ∅), σ')) as Hs.
  { unfold session_start.
    rewrite (bind_run _ _ σ σ athletes) by done.
    rewrite (bind_run _ _ σ σ' results) by by rewrite load_results_absent.
    by rewrite (bind_run _ _ σ' σ' (PyDict ∅)) by by rewrite load_picks_run, Hp'. }
  exists athletes, results, σ'. split; [by rewrite Ha |]. split; [exact Hs |].
  split; [apply merge_left_ids |].
  split.
  { apply (fillna_merge_left_Forall (λ m, m = "None")); [done |].
    unfold coerce_medals, seed. rewrite <- list_fmap_compose.
    by apply Forall_fmap, Forall_true. }
  split; [apply build_scoreboard_no_picks |].
  split; [cbn; apply lookup_insert_eq |].
  split; [unfold seed; by rewrite length_fmap |].
  split; [exact Hp' |].
  cbn. rewrite lookup_insert_ne by by apply (paths_ne 0 4).
  by rewrite lookup_delete_ne by by apply (paths_ne 2 4).
Qed.

Lemma first_run_witness :
  files fresh_world !! ATHLETES_CSV = Some (CsvText roster_table) ∧
  ∃ athletes results σ',
    session_start fresh_world = (Return (athletes, results, PyDict ∅), σ') ∧
    Forall (λ r : string * string, r.2 = "None") results ∧
    build_scoreboard athletes results (PyDict ∅)
      = Return (zero_row <$> PLAYERS).
Proof.
  assert (files fresh_world !! ATHLETES_CSV = Some (CsvText roster_table)) as Hf
    by reflexivity.
  split; [exact Hf |].
  destruct (first_run fresh_world roster_table Hf eq_refl eq_refl eq_refl)
    as (athletes & results & σ' & _ & Hs & _ & Hn & Hb & _).
  by exists athletes, results, σ'.
Defined.

Lemma load_athletes_files (σ : world) : files (load_athletes σ).2 = files σ.
Proof.
  rewrite load_athletes_run.
  destruct (files σ !! ATHLETES_CSV) as [[tb | v | s] |]; try done.
  by destruct (issubset athletes_required (columns tb)).
Qed.

(** Every frame a load returns is a left merge of the registry with a
    frame of medals of the enum. *)
Lemma load_results_shape (athletes : list Athlete) (σ σ' : world)
    (merged : DataFrame) :
  load_results athletes σ = (Return merged, σ') →
  ∃ df, merged = fillna (merge_left (athlete_id <$> athletes) df) ∧
        Forall (λ r, r.2 ∈ MEDALS) df.
Proof.
  intros Hl. destruct (files σ !! RESULTS_CSV) as [[tb | v | s] |] eqn:Hf.
  - destruct (issubset required (columns tb)) eqn:Hc.
    + rewrite (load_results_present _ _ tb) in Hl by done. injection Hl as <- _.
      eexists. split; [done | apply coerce_medals_Forall].
    + by rewrite (load_results_missing_columns _ _ tb) in Hl.
  - by rewrite (load_results_unparseable _ _ (JsonText v)) in Hl.
  - by rewrite (load_results_unparseable _ _ (OtherText s)) in Hl.
  - rewrite load_results_absent in Hl by done. injection Hl as <- _.
    eexists. split; [done | apply coerce_medals_Forall].
Qed.

Lemma M_bind_inv {A B} (m : M A) (k : A → M B) (σ σ' : world) (b : B) :
  (m ≫= k) σ = (Return b, σ') →
  ∃ a σ1, m σ = (Return a, σ1) ∧ k a σ1 = (Return b, σ').
Proof.
  unfold mbind, M_bind. destruct (m σ) as [[a | e |] σ1]; [eauto | done | done].
Qed.

(** X21. Whatever the files hold, when the start of a run returns, its
    results frame mentions exactly the ids of the roster it returns, every
    medal in it is one of the enum, and the picks are the stored document or
    the empty dict; the roster file and the picks file are as they were. *)
Theorem session_start_invariant (σ σ' : world) (athletes : list Athlete)
    (results : DataFrame) (picks_all : pyval) :
  session_start σ = (Return (athletes, results, picks_all), σ') →
  (∀ a, a ∈ results.*1 ↔ a ∈ athlete_id <$> athletes) ∧
  Forall (λ r, r.2 ∈ MEDALS) results ∧
  picks_all = match files σ !! PICKS_JSON with
              | Some (JsonText v) => v
              | _ => PyDict ∅
              end ∧
  files σ' !! ATHLETES_CSV = files σ !! ATHLETES_CSV ∧
  files σ' !! PICKS_JSON = files σ !! PICKS_JSON.
Proof.
  unfold session_start. intros H.
  apply M_bind_inv in H as (ath & σ1 & Ha & H).
  apply M_bind_inv in H as (res & σ2 & Hr & H).
  apply M_bind_inv in H as (pk & σ3 & Hp & H).
  injection H as -> -> -> ->.
  rewrite load_picks_run in Hp. injection Hp as <- <-.
  assert (files σ1 = files σ) as H1
    by (rewrite <- (load_athletes_files σ); by rewrite Ha).
  assert (files σ2 = files (load_results athletes σ1).2) as H2 by by rewrite Hr.
  rewrite load_results_files, H1 in H2.
  assert (files σ2 !! ATHLETES_CSV = files σ !! ATHLETES_CSV ∧
          files σ2 !! PICKS_JSON = files σ !! PICKS_JSON) as [H3 H4].
  { rewrite H2. destruct (files σ !! RESULTS_CSV); [done |]. split.
    - rewrite lookup_insert_ne by by apply (paths_ne 0 4).
      by rewrite lookup_delete_ne by by apply (paths_ne 2 4).
    - rewrite lookup_insert_ne by by apply (paths_ne 0 1).
      by rewrite lookup_delete_ne by by apply (paths_ne 2 1). }
  destruct (load_results_shape _ _ _ _ Hr) as (df & -> & Hdf).
  split; [apply merge_left_ids |]. split; [by apply fillna_merge_left_medals |].
  split; [by rewrite H4 |]. done.
Qed.

Lemma session_start_invariant_witness :
  session_start fresh_world
    = (Return ([A1], [("A1", "None")], PyDict ∅),
       (session_start fresh_world).2) ∧
  (∀ a, a ∈ [("A1", "None")].*1 ↔ a ∈ athlete_id <$> [A1]) ∧
  Forall (λ r : string * string, r.2 ∈ MEDALS) [("A1", "None")].
Proof.
  assert (session_start fresh_world
          = (Return ([A1], [("A1", "None")], PyDict ∅),
             (session_start fresh_world).2)) as H by (vm_compute; reflexivity).
  split; [exact H |].
  destruct (session_start_invariant _ _ _ _ _ H) as (H1 & H2 & _).
  by split.
Defined.

(** ** The tab "Admin (resultat)" *)

Lemma insert_asc_Permutation (x : ResRow) (l : list ResRow) :
  insert_asc x l ≡ₚ x :: l.
Proof.
  induction l as [| y l IH]; cbn; [done |].
  destruct (res_le x y); [done |]. rewrite IH. apply Permutation_swap.
Qed.

Lemma sort_values_sport_name_Permutation (l : list ResRow) :
  sort_values_sport_name l ≡ₚ l.
Proof.
  induction l as [| x l IH]; cbn; [done |].
  by rewrite insert_asc_Permutation, IH.
Qed.

#[local] Instance admin_key_inj : Inj (=) (=) admin_key.
Proof. intros a b H. unfold admin_key in H. by simplify_eq/=. Qed.

Lemma medal_index_nth (m : string) :
  nth (medal_index (PyStr m)) MEDALS "" = coerce_medal m.
Proof.
  destruct (decide (m ∈ MEDALS)) as [Hin | Hout].
  - rewrite coerce_medal_id by done. unfold MEDALS in Hin.
    repeat (apply elem_of_cons in Hin as [-> | Hin]; [by vm_compute |]).
    by apply elem_of_nil in Hin.
  - unfold coerce_medal. rewrite (bool_decide_eq_false_2 (m ∈ MEDALS)) by done.
    unfold medal_index, MEDALS in *. cbn.
    by rewrite !bool_decide_eq_false_2
      by (intros ->; apply Hout; rewrite !elem_of_cons; tauto).
Qed.

Lemma selectbox_admin (session : gmap string string) (r : string * string) :
  selectbox session (admin_key r.1) MEDALS (medal_index (PyStr r.2))
  = admin_medal session r.
Proof. unfold selectbox, admin_medal. by rewrite medal_index_nth. Qed.

(** The records of [res] under one record of the results: at least one,
    all with its id and medal. *)
Lemma merge_roster_cons (r : string * string) (results : DataFrame)
    (athletes : list Athlete) :
  ∃ row rows,
    merge_roster (r :: results) athletes
      = (row :: rows ++ merge_roster results athletes)%list ∧
    Forall (λ x, res_id x = r.1 ∧ res_medal x = r.2) (row :: rows) ∧
    (length (filter (λ a, athlete_id a = r.1) athletes) ≤ 1 → rows = [])%nat.
Proof.
  unfold merge_roster at 1. cbn [flat_map]. fold (merge_roster results athletes).
  destruct (filter (λ a, athlete_id a = r.1) athletes) as [| a ms].
  - exists (mkResRow None None r.1 r.2), []. repeat split; by repeat constructor.
  - exists (mkResRow (Some (sport a)) (Some (name a)) r.1 r.2),
           ((λ a, mkResRow (Some (sport a)) (Some (name a)) r.1 r.2) <$> ms).
    split; [done |]. split.
    + constructor; [done |]. by apply Forall_fmap, Forall_true.
    + cbn. intros H. destruct ms; [done | cbn in H; lia].
Qed.

(** When no two records of [res] share an id, [res] has one record per
    record of the results. *)
Lemma merge_roster_pairs (results : DataFrame) (athletes : list Athlete) :
  NoDup (res_id <$> merge_roster results athletes) →
  (λ x, (res_id x, res_medal x)) <$> merge_roster results athletes = results.
Proof.
  induction results as [| r results IH]; [done |].
  destruct (merge_roster_cons r results athletes) as (row & rows & -> & Hr & _).
  apply Forall_cons in Hr as [[Hid Hm] Hrows].
  rewrite !fmap_cons, !fmap_app. intros Hnd.
  apply NoDup_cons in Hnd as [Hrow Hnd]. apply NoDup_app in Hnd as (_ & _ & Hnd).
  destruct rows as [| row' rows].
  - cbn. rewrite IH by done. rewrite Hid, Hm. by destruct r.
  - apply Forall_cons in Hrows as [[Hid' _] _]. destruct Hrow.
    rewrite Hid, <- Hid'. cbn. left.
Qed.

Lemma filter_athlete_NoDup (athletes : list Athlete) (a : string) :
  NoDup (athlete_id <$> athletes) →
  (length (filter (λ x, athlete_id x = a) athletes) ≤ 1)%nat.
Proof.
  induction athletes as [| x athletes IH]; [cbn; lia |].
  rewrite fmap_cons, NoDup_cons. intros [Hx Hnd].
  rewrite filter_cons. case_decide as Ha; [| by apply IH].
  destruct (filter (λ x0, athlete_id x0 = a) athletes) as [| y ms] eqn:Hf; [cbn; lia |].
  assert (y ∈ filter (λ x0, athlete_id x0 = a) athletes) as Hy by (rewrite Hf; left).
  apply list_elem_of_filter in Hy as [Hya Hy].
  destruct Hx. rewrite Ha, <- Hya. apply list_elem_of_fmap. by exists y.
Qed.

Lemma merge_roster_ids (results : DataFrame) (athletes : list Athlete) :
  NoDup (athlete_id <$> athletes) →
  res_id <$> merge_roster results athletes = results.*1.
Proof.
  intros Hnd. induction results as [| r results IH]; [done |].
  destruct (merge_roster_cons r results athletes) as (row & rows & -> & Hr & H1).
  rewrite (H1 (filter_athlete_NoDup _ _ Hnd)) in *.
  apply Forall_cons in Hr as [[Hid _] _]. cbn. by rewrite IH, Hid.
Qed.

(** What the tab hands to [save_results], up to the order of the records. *)
Lemma admin_tab_updated (pwd : string) (session : gmap string string)
    (clicked : bool) (results : DataFrame) (athletes : list Athlete)
    (out : DataFrame) :
  admin_tab pwd session clicked results athletes = Some (Some out) →
  admin_ok pwd = true ∧ clicked = true ∧
  NoDup results.*1 ∧
  out ≡ₚ (λ r, (r.1, admin_medal session r)) <$> results.
Proof.
  unfold admin_tab. destruct (admin_ok pwd); [| done]. cbn [negb].
  case_bool_decide as Hnd; [| done]. destruct clicked; [| done].
  intros [= <-]. split; [done |]. split; [done |].
  rewrite list_fmap_compose in Hnd. apply NoDup_fmap in Hnd; [| apply _].
  rewrite sort_values_sport_name_Permutation in Hnd.
  pose proof (merge_roster_pairs _ _ Hnd) as Hp.
  rewrite sort_values_sport_name_Permutation. split.
  - rewrite <- Hp at 1. rewrite <- list_fmap_compose.
    by rewrite (list_fmap_ext _ res_id (merge_roster results athletes)).
  - rewrite <- Hp at 2. rewrite <- list_fmap_compose.
    apply reflexive_eq, list_fmap_ext. intros _ x _. cbn.
    f_equal. apply (selectbox_admin session (res_id x, res_medal x)).
Qed.

(** X22. Whenever the Admin tab saves, the password was the admin
    password and the button was pressed, no athlete id occurs twice in the
    results, and the frame saved has exactly one record per record of the
    results: its id with the medal chosen in its select box, or, where
    nothing was chosen, the stored medal when it is of the enum and None
    otherwise.  With another password nothing is saved. *)
Theorem admin_tab_saves (pwd : string) (session : gmap string string)
    (clicked : bool) (results : DataFrame) (athletes : list Athlete)
    (out : DataFrame) :
  admin_tab pwd session clicked results athletes = Some (Some out) →
  pwd = ADMIN_PASSWORD ∧ clicked = true ∧
  NoDup results.*1 ∧
  out ≡ₚ (λ r, (r.1, admin_medal session r)) <$> results ∧
  ∀ pwd', pwd' ≠ ADMIN_PASSWORD →
    admin_tab pwd' session clicked results athletes = Some None.
Proof.
  intros H. apply admin_tab_updated in H as (Hok & Hc & Hnd & Hp).
  split; [| split; [done | split; [done | split; [done |]]]].
  - unfold admin_ok in Hok. cbn in Hok. by apply bool_decide_eq_true in Hok.
  - intros pwd' Hpwd. unfold admin_tab, admin_ok.
    rewrite (bool_decide_eq_false_2 (ADMIN_PASSWORD = "")) by done.
    by rewrite (bool_decide_eq_false_2 (pwd' = ADMIN_PASSWORD)).
Qed.

Lemma admin_tab_saves_witness :
  admin_tab "admin" {[ "admin_A1" := "Silver" ]} true gold_results [A1]
    = Some (Some [("A1", "Silver")]) ∧
  [("A1", "Silver")]
    ≡ₚ (λ r, (r.1, admin_medal {[ "admin_A1" := "Silver" ]} r)) <$> gold_results.
Proof.
  assert (admin_tab "admin" {[ "admin_A1" := "Silver" ]} true gold_results [A1]
          = Some (Some [("A1", "Silver")])) as H by (vm_compute; reflexivity).
  split; [exact H |].
  exact (proj1 (proj2 (proj2 (proj2 (admin_tab_saves _ _ _ _ _ _ H))))).
Defined.




